(** * Sharded key-value store: coordinator, shard node and monolithic app

    A shallow embedding of the three FastAPI services of the repository

    - [src/shard/app/main.py]        (module [Shard]),
    - [src/coordinator/app/main.py]  (module [Coordinator]),
    - [src/app/main.py]              (module [App]),

    together with the consistent-hash ring the coordinator imports
    (module [ConsistentHash]).  Handlers are written in a state-and-exception
    monad: a Python [raise] keeps every mutation made before it. *)

From stdpp Require Import base option list strings gmap pretty.
From Stdlib Require Import ZArith NArith Lia Ascii.

#[local] Set Warnings "-register-all".
Local Open Scope Z_scope.

(** ** JSON values, Python dictionaries and exceptions *)

Inductive json : Type :=
| JNull
| JBool (b : bool)
| JInt (z : Z)
| JStr (s : string)
| JArr (items : list json)
| JObj (fields : list (string * json)).

(** A Python [dict] with string keys, as it travels in a JSON body. *)
Abbreviation dict := (list (string * json)).

(** [d[k] = v] on a dict kept as an ordered field list: an existing key keeps
    its place, a new key goes last. *)
Fixpoint dict_set (k : string) (v : json) (d : dict) : dict :=
  match d with
  | [] => [(k, v)]
  | (k', v') :: d' =>
      if String.eqb k' k then (k, v) :: d' else (k', v') :: dict_set k v d'
  end.

(** [d.get(k)] *)
Fixpoint dict_get (k : string) (d : dict) : option json :=
  match d with
  | [] => None
  | (k', v) :: d' => if String.eqb k' k then Some v else dict_get k d'
  end.

(** Python truthiness of an [Optional[str]]: [None] and the empty string are
    falsy. *)
Definition truthy (s : option string) : bool :=
  match s with
  | None => false
  | Some s => negb (String.eqb s EmptyString)
  end.

(** [str(x)] for an [Optional[str]], as an f-string formats it. *)
Definition str (s : option string) : string :=
  match s with
  | None => "None"
  | Some s => s
  end.

Definition json_of_optstr (s : option string) : json :=
  match s with
  | None => JNull
  | Some s => JStr s
  end.

Inductive exn : Type :=
| HTTPException (status_code : Z) (detail : json)
| KeyError (key : string)
| ConnectError (url : string)
| DuplicateShardError (node : string).

Inductive result (A : Type) : Type :=
| Return (a : A)
| Raise (e : exn).
Arguments Return {A} a.
Arguments Raise {A} e.

(** An HTTP response as httpx shows it to the caller: [resp.status_code] and
    [resp.json()]. *)
Record Response : Type := mkResponse { status_code : Z; body : json }.

(** ** The handler monad: state [S], result or raised exception *)

Definition M (S A : Type) : Type := S → result A * S.

Definition ret {S A} (a : A) : M S A := λ s, (Return a, s).
Definition raise {S A} (e : exn) : M S A := λ s, (Raise e, s).
Definition bind {S A B} (c : M S A) (k : A → M S B) : M S B :=
  λ s, match c s with
       | (Return a, s') => k a s'
       | (Raise e, s') => (Raise e, s')
       end.
Definition get {S} : M S S := λ s, (Return s, s).
Definition put {S} (s : S) : M S unit := λ _, (Return tt, s).

Notation "'let!' x ':=' c 'in' k" := (bind c (λ x, k))
  (at level 10, x pattern, c at level 100, k at level 200,
   format "'[v' 'let!'  x  ':='  c  'in' '/' k ']'").
Notation "c '>>' k" := (bind c (λ _, k))
  (at level 100, k at level 200, right associativity).

(** What FastAPI answers for a handler run: the returned value with status
    200, an [HTTPException] as its status with body [{"detail": ...}], any
    other exception as a 500. *)
Definition serve {S} (h : M S json) : S → Response * S :=
  λ s, match h s with
       | (Return b, s') => (mkResponse 200 b, s')
       | (Raise (HTTPException c d), s') => (mkResponse c (JObj [("detail", d)]), s')
       | (Raise _, s') => (mkResponse 500 (JStr "Internal Server Error"), s')
       end.

(** ** consistent_hash.ConsistentHashRing *)

Module ConsistentHash.
Section Ring.

(** The fixed hash function of the ring, used for virtual nodes and for keys
    alike, and the replication factor fixed at construction. *)
Variable hash : string → N.
Variable replicas : nat.

(** Modelled from the spec: the class [ConsistentHashRing] of module
    [consistent_hash], which the coordinator imports and which is not among
    the sources.  Section 3 and 4.1 of the specification: the ring is a
    collection of (position, shard identity) pairs sorted by position;
    [add_node] places [replicas] virtual nodes at [hash (identity || i)],
    a virtual node whose position is taken is rejected, and an identity
    already present is refused; [get_node] answers the owner of the
    smallest position at or after [hash key], wrapping to the first
    position, and nothing on an empty ring.  The identities given to
    [add_node] are kept in [nodes], the sorted pairs in [ring]. *)
Record ConsistentHashRing : Type := mkRing {
  nodes : list string;
  ring : list (N * string)
}.

(** Modelled from the spec: the constructor [ConsistentHashRing()], a ring
    with no shard and no virtual node. *)
Definition new : ConsistentHashRing := mkRing [] [].

(** Modelled from the spec: the position [hash (shard_identity || i)] of
    virtual node [i] of a shard. *)
Definition vnode_position (node : string) (i : nat) : N :=
  hash (node +:+ pretty i).

(** Modelled from the spec: a virtual node goes in at its place in the
    order of positions; positions are unique, a colliding node is rejected. *)
Fixpoint insert_vnode (p : N) (node : string) (r : list (N * string))
  : list (N * string) :=
  match r with
  | [] => [(p, node)]
  | (q, m) :: r' =>
      if (p <? q)%N then (p, node) :: (q, m) :: r'
      else if (p =? q)%N then (q, m) :: r'
      else (q, m) :: insert_vnode p node r'
  end.

(** Modelled from the spec: the virtual nodes [0 .. replicas - 1] of a
    shard, inserted one after the other. *)
Definition add_vnodes (node : string) (r : list (N * string))
  : list (N * string) :=
  foldl (λ r i, insert_vnode (vnode_position node i) node r) r (seq 0 replicas).

(** Modelled from the spec: [add_node(shard_identity)] fails with
    [DuplicateShardError] if the identity is already present, and otherwise
    inserts its virtual nodes. *)
Definition add_node (node : string) (R : ConsistentHashRing)
  : result ConsistentHashRing :=
  if decide (node ∈ nodes R) then Raise (DuplicateShardError node)
  else Return (mkRing (node :: nodes R) (add_vnodes node (ring R))).

(** Modelled from the spec: the owner of the smallest position at or after
    [h], if there is one. *)
Fixpoint successor (h : N) (r : list (N * string)) : option string :=
  match r with
  | [] => None
  | (q, m) :: r' => if (h <=? q)%N then Some m else successor h r'
  end.

(** Modelled from the spec: [get_node(key)] answers the owner of the
    smallest position at or after [hash key], wraps around to the smallest
    position of the ring, and answers [None] on an empty ring. *)
Definition get_node (key : string) (R : ConsistentHashRing) : option string :=
  match ring R with
  | [] => None
  | (_, first) :: _ => Some (default first (successor (hash key) (ring R)))
  end.

End Ring.
End ConsistentHash.

(** ** src/shard/app/main.py *)

Module Shard.

(** [STORAGE: Dict[str, Dict[str, Any]]]: table name, then composite key. *)
Abbreviation Storage := (gmap string (gmap string (list (string * json)))).

Record KeyValue : Type := mkKeyValue {
  table : string;
  key : string;
  sort_key : option string;
  value : dict
}.

(** [STORAGE[table][composite_key] = value] *)
Definition setitem (table composite_key : string) (value : dict) : M Storage unit :=
  let! STORAGE := get in
  match STORAGE !! table with
  | None => raise (KeyError table)
  | Some t => put (<[table := <[composite_key := value]> t]> STORAGE)
  end.

(** [del STORAGE[table][composite_key]] *)
Definition delitem (table composite_key : string) : M Storage unit :=
  let! STORAGE := get in
  match STORAGE !! table with
  | None => raise (KeyError table)
  | Some t =>
      match t !! composite_key with
      | None => raise (KeyError composite_key)
      | Some _ => put (<[table := delete composite_key t]> STORAGE)
      end
  end.

(** [STORAGE[table][composite_key]] *)
Definition getitem (table composite_key : string) : M Storage dict :=
  let! STORAGE := get in
  match STORAGE !! table with
  | None => raise (KeyError table)
  | Some t =>
      match t !! composite_key with
      | None => raise (KeyError composite_key)
      | Some v => ret v
      end
  end.

(** [table in STORAGE] *)
Definition has_table (table : string) : M Storage bool :=
  let! STORAGE := get in ret (bool_decide (is_Some (STORAGE !! table))).

(** [composite_key in STORAGE[table]] *)
Definition has_key (table composite_key : string) : M Storage bool :=
  let! STORAGE := get in
  match STORAGE !! table with
  | None => raise (KeyError table)
  | Some t => ret (bool_decide (is_Some (t !! composite_key)))
  end.

Definition create (data : KeyValue) : M Storage json :=
  let! known := has_table (table data) in
  (if known then ret tt
   else let! STORAGE := get in put (<[table data := ∅]> STORAGE)) >>
  let composite_key :=
    if truthy (sort_key data) then key data +:+ ":" +:+ str (sort_key data)
    else key data in
  setitem (table data) composite_key (value data) >>
  ret (JObj [("message", JStr "Created"); ("table", JStr (table data));
             ("key", JStr composite_key)]).

Definition read (table key : string) (sort_key : option string) : M Storage json :=
  let! known := has_table table in
  if negb known then raise (HTTPException 404 (JStr "Table not found")) else
  let composite_key :=
    if truthy sort_key then key +:+ ":" +:+ str sort_key else key in
  let! present := has_key table composite_key in
  if negb present then raise (HTTPException 404 (JStr "Key not found")) else
  let! v := getitem table composite_key in
  ret (JObj [("key", JStr composite_key); ("value", JObj v)]).

Definition exists_ (table key : string) (sort_key : option string) : M Storage json :=
  let! known := has_table table in
  if negb known then ret (JObj [("exists", JBool false)]) else
  let composite_key :=
    if truthy sort_key then key +:+ ":" +:+ str sort_key else key in
  let! present := has_key table composite_key in
  ret (JObj [("exists", JBool present)]).

Definition update (data : KeyValue) : M Storage json :=
  let! known := has_table (table data) in
  if negb known then raise (HTTPException 404 (JStr "Table not found")) else
  let composite_key :=
    if truthy (sort_key data) then key data +:+ ":" +:+ str (sort_key data)
    else key data in
  let! present := has_key (table data) composite_key in
  if negb present then raise (HTTPException 404 (JStr "Key not found for update")) else
  setitem (table data) composite_key (value data) >>
  ret (JObj [("message", JStr "Updated"); ("table", JStr (table data));
             ("key", JStr composite_key); ("new_value", JObj (value data))]).

Definition delete (table key : string) (sort_key : option string) : M Storage json :=
  let! known := has_table table in
  if negb known then raise (HTTPException 404 (JStr "Table not found")) else
  let composite_key :=
    if truthy sort_key then key +:+ ":" +:+ str sort_key else key in
  let! present := has_key table composite_key in
  if negb present then raise (HTTPException 404 (JStr "Key not found")) else
  delitem table composite_key >>
  ret (JObj [("message", JStr "Deleted"); ("key", JStr composite_key)]).

(** The requests of the shard's HTTP surface, as its router hands them to
    the handlers: path and query parameters are those the router has taken
    from the URL; a body is a JSON object that FastAPI validates against
    [KeyValue] before the handler runs.  [Unrouted] is a request that
    reaches no handler and that the framework answers itself (404
    [Not Found], a redirect, 405). *)
Inductive Request : Type :=
| POST_create (body : json)
| GET_read (table key : string) (sort_key : option string)
| GET_exists (table key : string) (sort_key : option string)
| PUT_update (body : json)
| DELETE_delete (table key : string) (sort_key : option string)
| Unrouted (answer : Response).

(** The methods of the requests whose parameters travel in the URL path. *)
Inductive Method : Type := GET | DELETE.

(** A letter, a digit, [-] or [_]: a character that a URL path carries as
    it is. *)
Definition plain_char (c : Ascii.ascii) : bool :=
  let n := Ascii.nat_of_ascii c in
  ((48 <=? n) && (n <=? 57) || (65 <=? n) && (n <=? 90) || (97 <=? n) && (n <=? 122)
   || (n =? 45) || (n =? 95))%nat.

Fixpoint plain_chars (s : string) : bool :=
  match s with
  | EmptyString => true
  | String c s' => plain_char c && plain_chars s'
  end.

(** A plain path segment: not empty, and made of plain characters. *)
Definition plain (s : string) : bool :=
  match s with
  | EmptyString => false
  | String _ _ => plain_chars s
  end.

(** The path of a URL: what comes before the first [?] or [#].  The query
    that a URL string carries after [?] is replaced by the [params] of the
    call, and a fragment is not sent. *)
Fixpoint url_path (url : string) : string :=
  match url with
  | EmptyString => EmptyString
  | String c url' =>
      if (Ascii.eqb c "?" || Ascii.eqb c "#")%char then EmptyString
      else String c (url_path url')
  end.

(** The segments of a path, separated by [/]. *)
Fixpoint segments (path : string) : list string :=
  match path with
  | EmptyString => [EmptyString]
  | String c path' =>
      if Ascii.eqb c "/"%char then EmptyString :: segments path'
      else match segments path' with
           | segment :: rest => String c segment :: rest
           | [] => [String c EmptyString]
           end
  end.

(** Validation of a request body against the model [KeyValue]:
    [table: str], [key: str], [sort_key: Optional[str] = None],
    [value: dict] (required, so [null] is refused); other fields are
    ignored. *)
Definition parse_KeyValue (body : json) : option KeyValue :=
  match body with
  | JObj d =>
      match dict_get "table" d, dict_get "key" d, dict_get "value" d with
      | Some (JStr t), Some (JStr k), Some (JObj v) =>
          match dict_get "sort_key" d with
          | None | Some JNull => Some (mkKeyValue t k None v)
          | Some (JStr s) => Some (mkKeyValue t k (Some s) v)
          | Some _ => None
          end
      | _, _, _ => None
      end
  | _ => None
  end.

Section App.

(** The body FastAPI sends with a 422 for a request that fails
    validation (its wording depends on the pydantic version). *)
Variable validation_error : json → json.

(** What the router makes of any other path than those of two plain
    segments under [/read], [/exists] and [/delete]: a path with an escape,
    a dot segment, an empty, a missing or a further segment, or another
    character.  It is left open. *)
Variable other : Method → string → option string → Request.

(** The router on a URL path that carries the table and the key, as
    [/read/{table}/{key}] does: the path ends at the first [?] or [#]; two
    plain segments after the route's name are the parameters [table] and
    [key] of its handler, and [query] is the query parameter [sort_key]. *)
Definition route (method : Method) (url : string) (query : option string) : Request :=
  match segments (url_path url) with
  | [root; name; table; key] =>
      if String.eqb root EmptyString && plain table && plain key then
        match method with
        | GET =>
            if String.eqb name "read" then GET_read table key query
            else if String.eqb name "exists" then GET_exists table key query
            else other method url query
        | DELETE =>
            if String.eqb name "delete" then DELETE_delete table key query
            else other method url query
        end
      else other method url query
  | _ => other method url query
  end.

Definition with_body (body : json) (h : KeyValue → M Storage json)
  : Storage → Response * Storage :=
  match parse_KeyValue body with
  | Some data => serve (h data)
  | None => λ STORAGE, (mkResponse 422 (validation_error body), STORAGE)
  end.

Definition app (req : Request) : Storage → Response * Storage :=
  match req with
  | POST_create body => with_body body create
  | GET_read table key sort_key => serve (read table key sort_key)
  | GET_exists table key sort_key => serve (exists_ table key sort_key)
  | PUT_update body => with_body body update
  | DELETE_delete table key sort_key => serve (delete table key sort_key)
  | Unrouted answer => λ STORAGE, (answer, STORAGE)
  end.

(** The store of the node after a sequence of requests, served one by one. *)
Definition run (reqs : list Request) (STORAGE : Storage) : Storage :=
  foldl (λ STORAGE req, (app req STORAGE).2) STORAGE reqs.

End App.

End Shard.

(** ** src/app/main.py *)

Module App.

(** [TABLES: Dict[str, Dict[str, Any]]]: table name, then stored key. *)
Abbreviation Tables := (gmap string (gmap string (list (string * json)))).

Module TableDefinition.
Record t : Type := mk {
  name : string;
  primary_key : string;
  sort_key : option string
}.
End TableDefinition.

Record Record_ : Type := mkRecord {
  key : string;
  sort_key : option string;
  value : dict
}.

Definition register_table (definition : TableDefinition.t) : M Tables json :=
  let! TABLES := get in
  if bool_decide (is_Some (TABLES !! TableDefinition.name definition))
  then raise (HTTPException 400 (JStr "Table already exists")) else
  put (<[TableDefinition.name definition := ∅]> TABLES) >>
  ret (JObj [("message",
              JStr ("Table '" +:+ TableDefinition.name definition
                    +:+ "' registered successfully"))]).

Definition create_record (table_name : string) (record : Record_) : M Tables json :=
  let! TABLES := get in
  match TABLES !! table_name with
  | None => raise (HTTPException 404 (JStr "Table not found"))
  | Some table =>
      let composite_key :=
        if truthy (sort_key record) then key record +:+ ":" +:+ str (sort_key record)
        else key record in
      if bool_decide (is_Some (table !! composite_key))
      then raise (HTTPException 400 (JStr "Record already exists")) else
      put (<[table_name := <[composite_key := value record]> table]> TABLES) >>
      ret (JObj [("message", JStr "Record created"); ("key", JStr composite_key)])
  end.

Definition read_record (table_name key : string) : M Tables json :=
  let! TABLES := get in
  match TABLES !! table_name with
  | None => raise (HTTPException 404 (JStr "Table not found"))
  | Some table =>
      match table !! key with
      | None => raise (HTTPException 404 (JStr "Record not found"))
      | Some record => ret (JObj [("key", JStr key); ("value", JObj record)])
      end
  end.

Definition delete_record (table_name key : string) : M Tables json :=
  let! TABLES := get in
  match TABLES !! table_name with
  | None => raise (HTTPException 404 (JStr "Table not found"))
  | Some table =>
      if negb (bool_decide (is_Some (table !! key)))
      then raise (HTTPException 404 (JStr "Record not found")) else
      put (<[table_name := delete key table]> TABLES) >>
      ret (JObj [("message", JStr ("Record " +:+ key +:+ " deleted"))])
  end.

Definition update_record (table_name key : string) (record : Record_) : M Tables json :=
  let! TABLES := get in
  match TABLES !! table_name with
  | None => raise (HTTPException 404 (JStr "Table not found"))
  | Some table =>
      if negb (bool_decide (is_Some (table !! key)))
      then raise (HTTPException 404 (JStr "Record not found")) else
      put (<[table_name := <[key := value record]> table]> TABLES) >>
      ret (JObj [("message", JStr "Record updated"); ("key", JStr key)])
  end.

(** The HTTP surface of the monolithic app. *)
Inductive Request : Type :=
| POST_register_table (definition : TableDefinition.t)
| POST_create (table_name : string) (record : Record_)
| GET_read (table_name key : string)
| DELETE_delete (table_name key : string)
| PUT_update (table_name key : string) (record : Record_).

Definition app (req : Request) : M Tables json :=
  match req with
  | POST_register_table definition => register_table definition
  | POST_create table_name record => create_record table_name record
  | GET_read table_name key => read_record table_name key
  | DELETE_delete table_name key => delete_record table_name key
  | PUT_update table_name key record => update_record table_name key record
  end.

(** The tables after a sequence of requests, served one by one. *)
Definition run (reqs : list Request) (TABLES : Tables) : Tables :=
  foldl (λ TABLES req, (app req TABLES).2) TABLES reqs.

End App.

(** ** src/coordinator/app/main.py *)

Module Coordinator.

Import ConsistentHash.

Module ShardRegistration.
Record t : Type := mk { name : string; url : string }.
End ShardRegistration.

Module TableDef.
Record t : Type := mk {
  name : string;
  partition_key_name : string;
  sort_key_name : option string
}.
End TableDef.

Record KeyValue : Type := mkKeyValue {
  table : string;
  key : string;
  sort_key : option string;
  value : option dict
}.

(** [data.dict()] *)
Definition KeyValue_dict (data : KeyValue) : dict :=
  [("table", JStr (table data)); ("key", JStr (key data));
   ("sort_key", json_of_optstr (sort_key data));
   ("value", match value data with Some v => JObj v | None => JNull end)].

(** The coordinator's globals [SHARDS], [RING] and [TABLES]; beside them
    the shard nodes that answer at each base URL, each with its own
    [STORAGE], and the list of the remote calls made so far. *)
Record World : Type := mkWorld {
  SHARDS : gmap string string;
  RING : ConsistentHashRing;
  TABLES : gmap string TableDef.t;
  NET : gmap string Shard.Storage;
  SENT : list (string * Shard.Request)
}.

Definition set_SHARDS (f : gmap string string → gmap string string) (w : World) :=
  mkWorld (f (SHARDS w)) (RING w) (TABLES w) (NET w) (SENT w).
Definition set_RING (f : ConsistentHashRing → ConsistentHashRing) (w : World) :=
  mkWorld (SHARDS w) (f (RING w)) (TABLES w) (NET w) (SENT w).
Definition set_TABLES (f : gmap string TableDef.t → gmap string TableDef.t) (w : World) :=
  mkWorld (SHARDS w) (RING w) (f (TABLES w)) (NET w) (SENT w).
Definition set_NET (f : gmap string Shard.Storage → gmap string Shard.Storage) (w : World) :=
  mkWorld (SHARDS w) (RING w) (TABLES w) (f (NET w)) (SENT w).
Definition set_SENT (f : list (string * Shard.Request) → list (string * Shard.Request))
  (w : World) :=
  mkWorld (SHARDS w) (RING w) (TABLES w) (NET w) (f (SENT w)).

(** The state at start-up: empty globals, a fresh ring, no call made. *)
Definition start (net : gmap string Shard.Storage) : World :=
  mkWorld ∅ new ∅ net [].

Definition modify (f : World → World) : M World unit :=
  let! w := get in put (f w).

(** A query parameter as httpx writes it: [None] goes out as the empty
    value, [?sort_key=], which the shard reads as the empty string; both
    compose to the same key (lemma [composite_key_params]). *)
Definition params (sort_key : option string) : option string :=
  Some (default EmptyString sort_key).

Section Handlers.

Variable hash : string → N.
Variable replicas : nat.
(** The 422 body of the shard's framework, and the text of a response
    body ([resp.text]). *)
Variable validation_error : json → json.
Variable text : json → string.
(** What the shard's router makes of a path that is not of two plain
    segments (see [Shard.route]). *)
Variable other : Shard.Method → string → option string → Shard.Request.

(** [client.get(f"{shard_url}/{name}/{table}/{key}", params={"sort_key":
    sort_key})] and the like for [client.delete]: table and key are pasted
    into the path as they are, and the request that reaches the handlers of
    the node is what its router makes of that path. *)
Definition by_path (method : Shard.Method) (name table key : string)
    (sort_key : option string) : Shard.Request :=
  Shard.route other method ("/" +:+ name +:+ "/" +:+ table +:+ "/" +:+ key)
    (params sort_key).

Definition register_table (defn : TableDef.t) : M World json :=
  let! w := get in
  if bool_decide (is_Some (TABLES w !! TableDef.name defn))
  then raise (HTTPException 400 (JStr "Table already exists")) else
  modify (set_TABLES <[TableDef.name defn := defn]>) >>
  ret (JObj [("message", JStr "Table registered");
             ("table", JStr (TableDef.name defn))]).

(** The names come out in the order of the map; Python lists them in the
    order of registration. *)
Definition list_tables : M World json :=
  let! w := get in
  ret (JObj [("tables", JArr (JStr <$> (map_to_list (TABLES w)).*1))]).

(** [RING.add_node(name)]: the ring is updated in place, or the call
    raises. *)
Definition RING_add_node (name : string) : M World unit :=
  let! w := get in
  match add_node hash replicas name (RING w) with
  | Return R => put (set_RING (λ _, R) w)
  | Raise e => raise e
  end.

Definition register_shard (data : ShardRegistration.t) : M World json :=
  let! w := get in
  if bool_decide (is_Some (SHARDS w !! ShardRegistration.name data))
  then raise (HTTPException 400 (JStr "Shard already exists")) else
  modify (set_SHARDS <[ShardRegistration.name data := ShardRegistration.url data]>) >>
  RING_add_node (ShardRegistration.name data) >>
  ret (JObj [("message",
              JStr ("Shard " +:+ ShardRegistration.name data +:+ " registered"));
             ("url", JStr (ShardRegistration.url data))]).

(** The same remark on the order applies. *)
Definition list_shards : M World json :=
  let! w := get in
  ret (JObj [("shards", JObj (prod_map id JStr <$> map_to_list (SHARDS w)))]).

Definition get_shard_for_key (key : string) : M World (string * string) :=
  let! w := get in
  match get_node hash key (RING w) with
  | None => raise (HTTPException 500 (JStr "No shards available"))
  | Some shard_name =>
      match SHARDS w !! shard_name with
      | None => raise (KeyError shard_name)
      | Some shard_url => ret (shard_name, shard_url)
      end
  end.

(** One request of the httpx client to the node at [shard_url], given as
    the request that reaches the node's handlers: the call is recorded, then
    the node there, if any, serves it on its own [STORAGE]. *)
Definition send (shard_url : string) (req : Shard.Request) : M World Response :=
  modify (set_SENT (λ l, l ++ [(shard_url, req)])) >>
  let! w := get in
  match NET w !! shard_url with
  | None => raise (ConnectError shard_url)
  | Some STORAGE =>
      match Shard.app validation_error req STORAGE with
      | (resp, STORAGE') => put (set_NET <[shard_url := STORAGE']> w) >> ret resp
      end
  end.

Definition create_record (data : KeyValue) : M World json :=
  let composite_key :=
    if truthy (sort_key data) then key data +:+ ":" +:+ str (sort_key data)
    else key data in
  let! (shard_name, shard_url) := get_shard_for_key composite_key in
  let payload := dict_set "composite_key" (JStr composite_key) (KeyValue_dict data) in
  let! resp := send shard_url (Shard.POST_create (JObj payload)) in
  ret (JObj [("target_shard", JStr shard_name); ("response", body resp)]).

Definition read_record (table key : string) (sort_key : option string) : M World json :=
  let composite_key :=
    if truthy sort_key then key +:+ ":" +:+ str sort_key else key in
  let! (shard_name, shard_url) := get_shard_for_key composite_key in
  let! resp := send shard_url (by_path Shard.GET "read" table key sort_key) in
  if negb (status_code resp =? 200)
  then raise (HTTPException (status_code resp) (JStr (text (body resp)))) else
  ret (JObj [("target_shard", JStr shard_name); ("response", body resp)]).

Definition exists_record (table key : string) (sort_key : option string) : M World json :=
  let composite_key :=
    if truthy sort_key then key +:+ ":" +:+ str sort_key else key in
  let! (shard_name, shard_url) := get_shard_for_key composite_key in
  let! resp := send shard_url (by_path Shard.GET "exists" table key sort_key) in
  ret (JObj [("target_shard", JStr shard_name); ("response", body resp)]).

Definition update_record (data : KeyValue) : M World json :=
  let composite_key :=
    if truthy (sort_key data) then key data +:+ ":" +:+ str (sort_key data)
    else key data in
  let! (shard_name, shard_url) := get_shard_for_key composite_key in
  let payload := dict_set "composite_key" (JStr composite_key) (KeyValue_dict data) in
  let! resp := send shard_url (Shard.PUT_update (JObj payload)) in
  if negb (status_code resp =? 200)
  then raise (HTTPException (status_code resp) (JStr (text (body resp)))) else
  ret (JObj [("target_shard", JStr shard_name); ("response", body resp)]).

Definition delete_record (table key : string) (sort_key : option string) : M World json :=
  let composite_key :=
    if truthy sort_key then key +:+ ":" +:+ str sort_key else key in
  let! (shard_name, shard_url) := get_shard_for_key composite_key in
  let! resp := send shard_url (by_path Shard.DELETE "delete" table key sort_key) in
  if negb ((status_code resp =? 200) || (status_code resp =? 204))
  then raise (HTTPException (status_code resp) (JStr (text (body resp)))) else
  ret (JObj [("target_shard", JStr shard_name); ("response", body resp)]).

(** The coordinator's HTTP surface. *)
Inductive Request : Type :=
| POST_register_table (defn : TableDef.t)
| GET_tables
| POST_register_shard (data : ShardRegistration.t)
| GET_shards
| POST_create (data : KeyValue)
| GET_read (table key : string) (sort_key : option string)
| GET_exists (table key : string) (sort_key : option string)
| PUT_update (data : KeyValue)
| DELETE_delete (table key : string) (sort_key : option string).

Definition app (req : Request) : M World json :=
  match req with
  | POST_register_table defn => register_table defn
  | GET_tables => list_tables
  | POST_register_shard data => register_shard data
  | GET_shards => list_shards
  | POST_create data => create_record data
  | GET_read table key sort_key => read_record table key sort_key
  | GET_exists table key sort_key => exists_record table key sort_key
  | PUT_update data => update_record data
  | DELETE_delete table key sort_key => delete_record table key sort_key
  end.

(** The world after a sequence of client requests, served one by one. *)
Definition run (reqs : list Request) (w : World) : World :=
  foldl (λ w req, (app req w).2) w reqs.

End Handlers.

End Coordinator.

(** ** src/shard/app/main.py, at start-up *)

Module Startup.

(** Validation, by the coordinator's framework, of a request body against
    the model [ShardRegistration]: [name: str] and [url: str], both
    required. *)
Definition parse_ShardRegistration (body : json)
  : option Coordinator.ShardRegistration.t :=
  match body with
  | JObj d =>
      match dict_get "name" d, dict_get "url" d with
      | Some (JStr name), Some (JStr url) =>
          Some (Coordinator.ShardRegistration.mk name url)
      | _, _ => None
      end
  | _ => None
  end.

Section Startup.

Variable hash : string → N.
Variable replicas : nat.
Variable validation_error : json → json.

(** [POST /register_shard] on the coordinator, with a JSON body. *)
Definition POST_register_shard (body : json)
  : Coordinator.World → Response * Coordinator.World :=
  match parse_ShardRegistration body with
  | Some data => serve (Coordinator.register_shard hash replicas data)
  | None => λ w, (mkResponse 422 (validation_error body), w)
  end.

(** [register_with_coordinator]: the node posts its name, read from the
    environment ([None] when the variable is unset), and the address
    [http://{SHARD_NAME}:8000]; the answer is not looked at.  The
    coordinator is taken to be reachable at [COORDINATOR_URL]. *)
Definition register_with_coordinator (SHARD_NAME : option string)
  : M Coordinator.World unit :=
  λ w,
    let body :=
      JObj [("name", json_of_optstr SHARD_NAME);
            ("url", JStr ("http://" +:+ str SHARD_NAME +:+ ":8000"))] in
    (Return tt, (POST_register_shard body w).2).

End Startup.

End Startup.

(** * Properties *)

(** ** Vocabulary of the statements *)

(** The composition rule that every handler of the coordinator and of the
    shard writes out: [f"{key}:{sort_key}" if sort_key else key]. *)
Definition composite_key (key : string) (sort_key : option string) : string :=
  if truthy sort_key then key +:+ ":" +:+ str sort_key else key.

(** The record a store holds for a key of a table, if any. *)
Definition entry (STORAGE : gmap string (gmap string dict)) (table ck : string)
  : option dict :=
  STORAGE !! table ≫= λ t, t !! ck.

(** A handler on a store works at key [ck] of [table]: every other entry is
    left as it was, and the outcome depends on the store only through the
    presence of the table and the entry at [ck]. *)
Definition at_key (h : M (gmap string (gmap string dict)) json) (table ck : string)
  : Prop :=
  (∀ S t k, (t, k) ≠ (table, ck) → entry (h S).2 t k = entry S t k) ∧
  (∀ S S', (is_Some (S !! table) ↔ is_Some (S' !! table)) →
           entry S table ck = entry S' table ck → (h S).1 = (h S').1).

(** The class of a status code: 2 for 2xx, 4 for 4xx, 5 for 5xx. *)
Definition status_class (status_code : Z) : Z := status_code / 100.

(** The requests that reach a record: create, read, exists, update, delete. *)
Definition is_crud (req : Coordinator.Request) : bool :=
  match req with
  | Coordinator.POST_create _ | Coordinator.GET_read _ _ _
  | Coordinator.GET_exists _ _ _ | Coordinator.PUT_update _
  | Coordinator.DELETE_delete _ _ _ => true
  | _ => false
  end.

Definition is_register_shard (req : Coordinator.Request) : bool :=
  match req with
  | Coordinator.POST_register_shard _ => true
  | _ => false
  end.


(** A coordinator handler is routed by key [ck]: when no shard resolves for
    [ck] it raises what the resolution raised and touches nothing; otherwise
    it makes one remote call, to the address resolved for [ck], and whatever
    it returns names the shard resolved for [ck]. *)
Definition routed_by (hash : string → N) (h : M Coordinator.World json) (ck : string)
  : Prop :=
  ∀ w, match (Coordinator.get_shard_for_key hash ck w).1 with
       | Raise e => h w = (Raise e, w)
       | Return (shard_name, shard_url) =>
           (∃ req, Coordinator.SENT (h w).2 = Coordinator.SENT w ++ [(shard_url, req)]) ∧
           (∀ j, (h w).1 = Return j →
                 ∃ r, j = JObj [("target_shard", JStr shard_name); ("response", r)])
       end.

(** The requests of the shard that create a record. *)
Definition is_create (req : Shard.Request) : bool :=
  match req with
  | Shard.POST_create _ => true
  | _ => false
  end.

(** A coordinator handler forwards the request [req], routed by key [ck]:
    it is routed by [ck], and the one call it makes when a shard resolves
    carries [req] to the handlers of the node. *)
Definition forwards (hash : string → N) (h : M Coordinator.World json) (ck : string)
    (req : Shard.Request) : Prop :=
  ∀ w, match (Coordinator.get_shard_for_key hash ck w).1 with
       | Raise e => h w = (Raise e, w)
       | Return (shard_name, shard_url) =>
           Coordinator.SENT (h w).2 = Coordinator.SENT w ++ [(shard_url, req)] ∧
           (∀ j, (h w).1 = Return j →
                 ∃ r, j = JObj [("target_shard", JStr shard_name); ("response", r)])
       end.

(** The shard serves the request [req] at key [ck] of [table]: every other
    entry of its store is left as it was, and its answer depends on the
    store only through the presence of the table and the entry at [ck]. *)
Definition served_at (req : Shard.Request) (table ck : string) : Prop :=
  ∀ (validation_error : json → json),
    (∀ S t k, (t, k) ≠ (table, ck) →
              entry (Shard.app validation_error req S).2 t k = entry S t k) ∧
    (∀ S S', (is_Some (S !! table) ↔ is_Some (S' !! table)) →
             entry S table ck = entry S' table ck →
             (Shard.app validation_error req S).1 = (Shard.app validation_error req S').1).

(** Registration and ring in step: the names that hold an address are the
    identities of the ring, and every virtual node belongs to one of them. *)
Definition in_step (w : Coordinator.World) : Prop :=
  dom (Coordinator.SHARDS w) =@{gset string}
    list_to_set (ConsistentHash.nodes (Coordinator.RING w)) ∧
  ∀ p n, (p, n) ∈ ConsistentHash.ring (Coordinator.RING w) →
         n ∈ ConsistentHash.nodes (Coordinator.RING w).

(** ** A small deployment to run the services on *)

(** A polynomial string hash into 32 bits. *)
Definition demo_hash (s : string) : N :=
  foldl (λ h c, (h * 31 + Ascii.N_of_ascii c) mod 2 ^ 32)%N 0%N
        (String.list_ascii_of_string s).

Definition demo_validation_error (body : json) : json :=
  JObj [("detail", JArr [JObj [("loc", JArr [JStr "body"; JStr "value"])]])].

(** A router that answers 404 [Not Found] to every path it is asked about. *)
Definition demo_other (method : Shard.Method) (url : string) (query : option string)
  : Shard.Request :=
  Shard.Unrouted (mkResponse 404 (JObj [("detail", JStr "Not Found")])).

Definition demo_text (body : json) : string :=
  match body with
  | JObj [("detail", JStr s)] => "{detail: " +:+ s +:+ "}"
  | _ => "{}"
  end.

(** Two shard nodes with empty stores, registered under the names [s1] and
    [s2], three virtual nodes each. *)
Definition demo_world : Coordinator.World :=
  Coordinator.run demo_hash 3 demo_validation_error demo_text demo_other
    [Coordinator.POST_register_shard (Coordinator.ShardRegistration.mk "s1" "http://s1:8000");
     Coordinator.POST_register_shard (Coordinator.ShardRegistration.mk "s2" "http://s2:8000")]
    (Coordinator.start {[ "http://s1:8000" := ∅; "http://s2:8000" := ∅ ]}).

(** ** The composition rule *)

Lemma composite_key_None key : composite_key key None = key.
Proof. reflexivity. Qed.

Lemma composite_key_empty key : composite_key key (Some EmptyString) = key.
Proof. reflexivity. Qed.

Lemma composite_key_Some key s :
  composite_key key (Some s) =
    if decide (s = EmptyString) then key else key +:+ ":" +:+ s.
Proof.
  unfold composite_key; simpl.
  destruct (String.eqb_spec s EmptyString); case_decide; simpl; congruence.
Qed.

Lemma composite_key_params key sort_key :
  composite_key key (Coordinator.params sort_key) = composite_key key sort_key.
Proof.
  destruct sort_key as [s|]; [|reflexivity].
  reflexivity.
Qed.

(** Running a handler on a store: unfold the monad, then decide each
    membership test from the lookups at hand. *)
Ltac known_lookup :=
  match goal with
  | H : ?m !! ?k = _ |- context [?m !! ?k] => rewrite H
  end.
Ltac run_step :=
  first
    [ known_lookup
    | rewrite lookup_insert_eq
    | rewrite bool_decide_eq_true_2 by eauto
    | rewrite bool_decide_eq_false_2 by (intros [? ?]; congruence) ].
Ltac run_handler := repeat (simpl; try run_step).

(** ** The shard node, handler by handler *)

Section ShardFacts.

Implicit Types (S : gmap string (gmap string dict)) (data : Shard.KeyValue).

Lemma shard_create_eq data S :
  let ck := composite_key (Shard.key data) (Shard.sort_key data) in
  Shard.create data S =
    (Return (JObj [("message", JStr "Created"); ("table", JStr (Shard.table data));
                   ("key", JStr ck)]),
     <[Shard.table data := <[ck := Shard.value data]> (default ∅ (S !! Shard.table data))]> S).
Proof.
  unfold Shard.create, Shard.has_table, Shard.setitem;
    unfold bind, get, put, raise, ret, entry, composite_key.
  destruct (S !! Shard.table data) as [t|] eqn:Ht; run_handler; [done|].
  by rewrite insert_insert_eq.
Qed.

Lemma shard_read_eq table key sort_key S :
  let ck := composite_key key sort_key in
  Shard.read table key sort_key S =
    (match S !! table with
     | None => Raise (HTTPException 404 (JStr "Table not found"))
     | Some t =>
         match t !! ck with
         | None => Raise (HTTPException 404 (JStr "Key not found"))
         | Some v => Return (JObj [("key", JStr ck); ("value", JObj v)])
         end
     end, S).
Proof.
  unfold Shard.read, Shard.has_table, Shard.has_key, Shard.getitem;
    unfold bind, get, put, raise, ret, entry, composite_key.
  destruct (S !! table) as [t|] eqn:Ht; run_handler; [|done].
  destruct (t !! _) as [v|] eqn:Hv; by run_handler.
Qed.

Lemma shard_exists_eq table key sort_key S :
  let ck := composite_key key sort_key in
  Shard.exists_ table key sort_key S =
    (Return (JObj [("exists", JBool (bool_decide (is_Some (entry S table ck))))]), S).
Proof.
  unfold Shard.exists_, Shard.has_table, Shard.has_key;
    unfold bind, get, put, raise, ret, entry, composite_key.
  destruct (S !! table) as [t|] eqn:Ht; by run_handler.
Qed.

Lemma shard_update_eq data S :
  let ck := composite_key (Shard.key data) (Shard.sort_key data) in
  Shard.update data S =
    match S !! Shard.table data with
    | None => (Raise (HTTPException 404 (JStr "Table not found")), S)
    | Some t =>
        match t !! ck with
        | None => (Raise (HTTPException 404 (JStr "Key not found for update")), S)
        | Some _ =>
            (Return (JObj [("message", JStr "Updated");
                           ("table", JStr (Shard.table data)); ("key", JStr ck);
                           ("new_value", JObj (Shard.value data))]),
             <[Shard.table data := <[ck := Shard.value data]> t]> S)
        end
    end.
Proof.
  unfold Shard.update, Shard.has_table, Shard.has_key, Shard.setitem;
    unfold bind, get, put, raise, ret, entry, composite_key.
  destruct (S !! Shard.table data) as [t|] eqn:Ht; run_handler; [|done].
  destruct (t !! _) as [v|] eqn:Hv; by run_handler.
Qed.

Lemma shard_delete_eq table key sort_key S :
  let ck := composite_key key sort_key in
  Shard.delete table key sort_key S =
    match S !! table with
    | None => (Raise (HTTPException 404 (JStr "Table not found")), S)
    | Some t =>
        match t !! ck with
        | None => (Raise (HTTPException 404 (JStr "Key not found")), S)
        | Some _ =>
            (Return (JObj [("message", JStr "Deleted"); ("key", JStr ck)]),
             <[table := delete ck t]> S)
        end
    end.
Proof.
  unfold Shard.delete, Shard.has_table, Shard.has_key, Shard.delitem;
    unfold bind, get, put, raise, ret, entry, composite_key.
  destruct (S !! table) as [t|] eqn:Ht; run_handler; [|done].
  destruct (t !! _) as [v|] eqn:Hv; by run_handler.
Qed.

(** Over HTTP the handlers of the shard answer 200, 404 or 422: none lets
    another exception escape. *)
Lemma shard_app_status validation_error req S :
  status_code (Shard.app validation_error req S).1 ∈ [200; 404; 422] ∨
  ∃ answer, req = Shard.Unrouted answer.
Proof.
  assert (H200 : (200 : Z) ∈ [200; 404; 422]) by repeat constructor.
  assert (H404 : (404 : Z) ∈ [200; 404; 422]) by repeat constructor.
  assert (H422 : (422 : Z) ∈ [200; 404; 422]) by repeat constructor.
  destruct req as [body|table key sort_key|table key sort_key|body|table key sort_key
                  |answer];
    [left..|by eauto];
    simpl; unfold Shard.with_body, serve;
    try (destruct (Shard.parse_KeyValue body) as [data|]; [|done]);
    rewrite ?shard_create_eq, ?shard_read_eq, ?shard_exists_eq,
      ?shard_update_eq, ?shard_delete_eq; cbv zeta;
    repeat case_match; simplify_eq; done.
Qed.

End ShardFacts.

(** ** Paths that carry a table and a key *)

Section Paths.

Variable other : Shard.Method → string → option string → Shard.Request.

Lemma plain_chars_url_path s rest :
  Shard.plain_chars s = true →
  Shard.url_path (s +:+ rest) = s +:+ Shard.url_path rest.
Proof.
  induction s as [|c s IH]; [done|]. simpl. intros [Hc Hs]%andb_prop.
  rewrite IH by done.
  destruct (Ascii.eqb_spec c "?"); [by subst|].
  by destruct (Ascii.eqb_spec c "#"); [subst|].
Qed.

Lemma plain_chars_url_path_end s :
  Shard.plain_chars s = true → Shard.url_path s = s.
Proof.
  induction s as [|c s IH]; [done|]. simpl. intros [Hc Hs]%andb_prop.
  rewrite IH by done.
  destruct (Ascii.eqb_spec c "?"); [by subst|].
  by destruct (Ascii.eqb_spec c "#"); [subst|].
Qed.

Lemma plain_chars_segments s rest :
  Shard.plain_chars s = true →
  Shard.segments (s +:+ String "/" rest) = s :: Shard.segments rest.
Proof.
  induction s as [|c s IH]; [done|]. simpl. intros [Hc Hs]%andb_prop.
  rewrite IH by done. by destruct (Ascii.eqb_spec c "/"); [subst|].
Qed.

Lemma plain_chars_segments_end s :
  Shard.plain_chars s = true → Shard.segments s = [s].
Proof.
  induction s as [|c s IH]; [done|]. simpl. intros [Hc Hs]%andb_prop.
  rewrite IH by done. by destruct (Ascii.eqb_spec c "/"); [subst|].
Qed.

Lemma plain_plain_chars s : Shard.plain s = true → Shard.plain_chars s = true.
Proof. by destruct s. Qed.

(** The segments of the path [/name/table/key] for plain table and key. *)
Lemma plain_path_segments name table key :
  Shard.plain_chars name = true → Shard.plain table = true → Shard.plain key = true →
  Shard.segments (Shard.url_path ("/" +:+ name +:+ "/" +:+ table +:+ "/" +:+ key))
    = [EmptyString; name; table; key].
Proof.
  intros Hname Htable%plain_plain_chars Hkey%plain_plain_chars.
  change ("/" +:+ name +:+ "/" +:+ table +:+ "/" +:+ key)
    with (String "/" (name +:+ String "/" (table +:+ String "/" key))).
  cbn [Shard.url_path Ascii.eqb Bool.eqb orb]. cbn [Shard.segments Ascii.eqb Bool.eqb].
  rewrite plain_chars_url_path by done. cbn [Shard.url_path Ascii.eqb Bool.eqb orb].
  rewrite plain_chars_url_path by done. cbn [Shard.url_path Ascii.eqb Bool.eqb orb].
  rewrite plain_chars_url_path_end by done.
  rewrite !plain_chars_segments by done. by rewrite plain_chars_segments_end.
Qed.

(** A plain table and a plain key pasted into the path reach the handler as
    they are. *)
Lemma by_path_plain table key sort_key :
  Shard.plain table = true → Shard.plain key = true →
  Coordinator.by_path other Shard.GET "read" table key sort_key =
    Shard.GET_read table key (Coordinator.params sort_key) ∧
  Coordinator.by_path other Shard.GET "exists" table key sort_key =
    Shard.GET_exists table key (Coordinator.params sort_key) ∧
  Coordinator.by_path other Shard.DELETE "delete" table key sort_key =
    Shard.DELETE_delete table key (Coordinator.params sort_key).
Proof.
  intros Htable Hkey. unfold Coordinator.by_path, Shard.route.
  rewrite !plain_path_segments by done. by rewrite Htable, Hkey.
Qed.

End Paths.

Arguments Coordinator.by_path : simpl never.

(** ** The coordinator, step by step *)

Section CoordinatorFacts.

Import Coordinator.

Variable hash : string → N.
Variable replicas : nat.
Variable validation_error : json → json.
Variable text : json → string.
Variable other : Shard.Method → string → option string → Shard.Request.

Implicit Types (w : World) (data : KeyValue).

Lemma get_shard_for_key_eq key w :
  get_shard_for_key hash key w =
    (match ConsistentHash.get_node hash key (RING w) with
     | None => Raise (HTTPException 500 (JStr "No shards available"))
     | Some shard_name =>
         match SHARDS w !! shard_name with
         | None => Raise (KeyError shard_name)
         | Some shard_url => Return (shard_name, shard_url)
         end
     end, w).
Proof.
  unfold get_shard_for_key, bind, get, raise, ret.
  destruct (ConsistentHash.get_node _ _ _); [|done].
  by destruct (SHARDS w !! _).
Qed.

(** Shard resolution reads the registry and the ring and writes nothing. *)
Lemma get_shard_for_key_world key w : (get_shard_for_key hash key w).2 = w.
Proof. by rewrite get_shard_for_key_eq. Qed.

Lemma send_eq shard_url req w :
  send validation_error shard_url req w =
    let w1 := set_SENT (λ l, l ++ [(shard_url, req)]) w in
    match NET w !! shard_url with
    | None => (Raise (ConnectError shard_url), w1)
    | Some STORAGE =>
        let r := Shard.app validation_error req STORAGE in
        (Return r.1, set_NET <[shard_url := r.2]> w1)
    end.
Proof.
  unfold send, modify, bind, get, put, raise, ret. simpl.
  destruct (NET w !! shard_url); [|done].
  by destruct (Shard.app _ _ _).
Qed.

(** The body the coordinator posts parses, on the shard, to the record it
    was made from; without a value it fails the shard's validation. *)
Lemma parse_payload data ck :
  Shard.parse_KeyValue
    (JObj (dict_set "composite_key" (JStr ck) (KeyValue_dict data))) =
    (λ v, Shard.mkKeyValue (table data) (key data) (sort_key data) v) <$> value data.
Proof. by destruct data as [t k [s|] [v|]]. Qed.

(** What the shard does with the body of a create or of an update. *)
Lemma shard_app_body data ck S :
  let body := JObj (dict_set "composite_key" (JStr ck) (KeyValue_dict data)) in
  let served h :=
    match value data with
    | Some v =>
        serve (h (Shard.mkKeyValue (table data) (key data) (sort_key data) v)) S
    | None => (mkResponse 422 (validation_error body), S)
    end in
  Shard.app validation_error (Shard.POST_create body) S = served Shard.create ∧
  Shard.app validation_error (Shard.PUT_update body) S = served Shard.update.
Proof.
  cbv zeta. unfold Shard.app, Shard.with_body. rewrite parse_payload.
  by destruct (value data).
Qed.

(** Each record handler resolves a shard for the composite key and then
    makes its one call. *)
Lemma create_record_eq data w :
  let ck := composite_key (key data) (sort_key data) in
  create_record hash validation_error data w =
    match (get_shard_for_key hash ck w).1 with
    | Raise e => (Raise e, w)
    | Return (shard_name, shard_url) =>
        match send validation_error shard_url
                (Shard.POST_create
                   (JObj (dict_set "composite_key" (JStr ck) (KeyValue_dict data)))) w with
        | (Return resp, w') =>
            (Return (JObj [("target_shard", JStr shard_name); ("response", body resp)]), w')
        | (Raise e, w') => (Raise e, w')
        end
    end.
Proof.
  unfold create_record, composite_key, bind. rewrite get_shard_for_key_eq. simpl.
  repeat case_match; simplify_eq; done.
Qed.

Lemma read_record_eq table key sort_key w :
  let ck := composite_key key sort_key in
  read_record hash validation_error text other table key sort_key w =
    match (get_shard_for_key hash ck w).1 with
    | Raise e => (Raise e, w)
    | Return (shard_name, shard_url) =>
        match send validation_error shard_url
                (by_path other Shard.GET "read" table key sort_key) w with
        | (Return resp, w') =>
            if status_code resp =? 200
            then (Return (JObj [("target_shard", JStr shard_name);
                                ("response", body resp)]), w')
            else (Raise (HTTPException (status_code resp) (JStr (text (body resp)))), w')
        | (Raise e, w') => (Raise e, w')
        end
    end.
Proof.
  unfold read_record, composite_key, bind. rewrite get_shard_for_key_eq. simpl.
  repeat case_match; simplify_eq; done.
Qed.

Lemma exists_record_eq table key sort_key w :
  let ck := composite_key key sort_key in
  exists_record hash validation_error other table key sort_key w =
    match (get_shard_for_key hash ck w).1 with
    | Raise e => (Raise e, w)
    | Return (shard_name, shard_url) =>
        match send validation_error shard_url
                (by_path other Shard.GET "exists" table key sort_key) w with
        | (Return resp, w') =>
            (Return (JObj [("target_shard", JStr shard_name); ("response", body resp)]), w')
        | (Raise e, w') => (Raise e, w')
        end
    end.
Proof.
  unfold exists_record, composite_key, bind. rewrite get_shard_for_key_eq. simpl.
  repeat case_match; simplify_eq; done.
Qed.

Lemma update_record_eq data w :
  let ck := composite_key (key data) (sort_key data) in
  update_record hash validation_error text data w =
    match (get_shard_for_key hash ck w).1 with
    | Raise e => (Raise e, w)
    | Return (shard_name, shard_url) =>
        match send validation_error shard_url
                (Shard.PUT_update
                   (JObj (dict_set "composite_key" (JStr ck) (KeyValue_dict data)))) w with
        | (Return resp, w') =>
            if status_code resp =? 200
            then (Return (JObj [("target_shard", JStr shard_name);
                                ("response", body resp)]), w')
            else (Raise (HTTPException (status_code resp) (JStr (text (body resp)))), w')
        | (Raise e, w') => (Raise e, w')
        end
    end.
Proof.
  unfold update_record, composite_key, bind. rewrite get_shard_for_key_eq. simpl.
  repeat case_match; simplify_eq; done.
Qed.

Lemma delete_record_eq table key sort_key w :
  let ck := composite_key key sort_key in
  delete_record hash validation_error text other table key sort_key w =
    match (get_shard_for_key hash ck w).1 with
    | Raise e => (Raise e, w)
    | Return (shard_name, shard_url) =>
        match send validation_error shard_url
                (by_path other Shard.DELETE "delete" table key sort_key) w with
        | (Return resp, w') =>
            if (status_code resp =? 200) || (status_code resp =? 204)
            then (Return (JObj [("target_shard", JStr shard_name);
                                ("response", body resp)]), w')
            else (Raise (HTTPException (status_code resp) (JStr (text (body resp)))), w')
        | (Raise e, w') => (Raise e, w')
        end
    end.
Proof.
  unfold delete_record, composite_key, bind. rewrite get_shard_for_key_eq. simpl.
  repeat case_match; simplify_eq; done.
Qed.

(** A call adds one entry to the list of calls, whatever its outcome. *)
Lemma send_SENT shard_url req w :
  SENT (send validation_error shard_url req w).2 = SENT w ++ [(shard_url, req)].
Proof. rewrite send_eq. simpl. by destruct (NET w !! shard_url). Qed.

(** A call leaves the coordinator's globals alone. *)
Lemma send_globals shard_url req w :
  let w' := (send validation_error shard_url req w).2 in
  SHARDS w' = SHARDS w ∧ RING w' = RING w ∧ TABLES w' = TABLES w.
Proof. rewrite send_eq. simpl. by destruct (NET w !! shard_url). Qed.

End CoordinatorFacts.

(** ** The ring *)

Section RingFacts.

Import ConsistentHash.

Variable hash : string → N.
Variable replicas : nat.

Lemma get_node_new key : get_node hash key new = None.
Proof. reflexivity. Qed.

Lemma elem_of_insert_vnode p node r q m :
  (q, m) ∈ insert_vnode p node r → (q, m) = (p, node) ∨ (q, m) ∈ r.
Proof.
  induction r as [|[q' m'] r IH]; simpl.
  - intros ->%list_elem_of_singleton. by left.
  - destruct (p <? q')%N; [|destruct (p =? q')%N].
    + rewrite (elem_of_cons (_ :: _)). tauto.
    + by right.
    + rewrite !(elem_of_cons _ _ (q', m')). tauto.
Qed.

Lemma elem_of_add_vnodes node r q m :
  (q, m) ∈ add_vnodes hash replicas node r → m = node ∨ (q, m) ∈ r.
Proof.
  unfold add_vnodes. generalize (seq 0 replicas) as l.
  intros l; revert r. induction l as [|i l IH]; simpl; intros r; [by right|].
  intros [->|[?|?]%elem_of_insert_vnode]%IH; [by left| |by right].
  left. congruence.
Qed.

Lemma successor_elem h r m : successor h r = Some m → ∃ q, (q, m) ∈ r.
Proof.
  induction r as [|[q' m'] r IH]; simpl; [done|].
  case_match; intros ?; simplify_eq.
  - exists q'. by left.
  - destruct IH as [q ?]; [done|]. exists q. by right.
Qed.

(** The ring answers with the owner of one of its virtual nodes. *)
Lemma get_node_elem key R m : get_node hash key R = Some m → ∃ q, (q, m) ∈ ring R.
Proof.
  unfold get_node. destruct (ring R) as [|[q0 m0] r] eqn:HR; [done|].
  destruct (successor _ _) as [m'|] eqn:Hs; simpl; intros ?; simplify_eq.
  - by eapply successor_elem.
  - exists q0. by left.
Qed.

End RingFacts.

(** ** The coordinator over a sequence of requests *)

Section CoordinatorRuns.

Import Coordinator.

Variable hash : string → N.
Variable replicas : nat.
Variable validation_error : json → json.
Variable text : json → string.
Variable other : Shard.Method → string → option string → Shard.Request.

Local Abbreviation app := (app hash replicas validation_error text other).
Local Abbreviation run := (run hash replicas validation_error text other).

Implicit Types (w : World) (req : Request) (reqs : list Request).

Lemma run_snoc reqs req w : run (reqs ++ [req]) w = (app req (run reqs w)).2.
Proof. unfold Coordinator.run. by rewrite foldl_app. Qed.

(** A record request leaves [SHARDS], [RING] and [TABLES] as they were. *)
Lemma crud_globals req w :
  is_crud req = true →
  SHARDS (app req w).2 = SHARDS w ∧ RING (app req w).2 = RING w ∧
  TABLES (app req w).2 = TABLES w.
Proof.
  destruct req; try done; intros _; simpl;
    rewrite ?create_record_eq, ?read_record_eq, ?exists_record_eq,
      ?update_record_eq, ?delete_record_eq;
    (destruct (get_shard_for_key _ _ _).1 as [[n u]|e]; [|done]);
    match goal with
    | |- context [send ?v ?u ?r ?w] =>
        pose proof (send_globals v u r w) as Hg; cbv zeta in Hg;
        destruct (send v u r w) as [[resp|e] w']
    end; simpl in *; repeat case_match; done.
Qed.

(** Only a registration changes the address map or the ring. *)
Lemma app_keeps_registry req w :
  is_register_shard req = false →
  SHARDS (app req w).2 = SHARDS w ∧ RING (app req w).2 = RING w.
Proof.
  intros Hreq. destruct (is_crud req) eqn:Hcrud.
  { destruct (crud_globals req w Hcrud) as (? & ? & ?). done. }
  destruct req; try done; simpl.
  unfold register_table, modify, bind, get, put, raise, ret.
  by case_bool_decide.
Qed.

Lemma run_keeps_registry reqs w :
  Forall (λ req, is_register_shard req = false) reqs →
  SHARDS (run reqs w) = SHARDS w ∧ RING (run reqs w) = RING w.
Proof.
  induction reqs as [|req reqs IH] using rev_ind; [done|].
  intros [Hreqs Hreq%Forall_inv]%Forall_app.
  rewrite run_snoc.
  destruct (app_keeps_registry req (run reqs w) Hreq) as [-> ->]. auto.
Qed.

(** What a registration does on a coordinator whose registry and ring are
    in step. *)
Lemma register_shard_eq data w :
  in_step w →
  register_shard hash replicas data w =
    if bool_decide (ShardRegistration.name data ∈ dom (SHARDS w))
    then (Raise (HTTPException 400 (JStr "Shard already exists")), w)
    else
      (Return (JObj [("message",
                      JStr ("Shard " +:+ ShardRegistration.name data +:+ " registered"));
                     ("url", JStr (ShardRegistration.url data))]),
       set_RING (λ R, ConsistentHash.mkRing
                        (ShardRegistration.name data :: ConsistentHash.nodes R)
                        (ConsistentHash.add_vnodes hash replicas
                           (ShardRegistration.name data) (ConsistentHash.ring R)))
         (set_SHARDS <[ShardRegistration.name data := ShardRegistration.url data]> w)).
Proof.
  intros [Hdom _].
  unfold register_shard, RING_add_node, modify, bind, get, put, raise, ret. simpl.
  rewrite <-(bool_decide_ext _ _ (elem_of_dom (SHARDS w) _)).
  case_bool_decide as Hin; [done|]. simpl.
  unfold ConsistentHash.add_node. rewrite decide_False; [done|].
  rewrite Hdom, elem_of_list_to_set in Hin. done.
Qed.

Lemma start_in_step net : in_step (start net).
Proof.
  split; simpl.
  - by rewrite dom_empty_L.
  - intros p n []%elem_of_nil.
Qed.

Lemma app_in_step req w : in_step w → in_step (app req w).2.
Proof.
  intros Hw. destruct (is_register_shard req) eqn:Hreq.
  - destruct req; try done. simpl. rewrite register_shard_eq by done.
    case_bool_decide; [done|]. destruct Hw as [Hdom Hring].
    split; simpl.
    + rewrite dom_insert_L, Hdom. done.
    + intros p n [->|?]%elem_of_add_vnodes; [by left|]. right. eauto.
  - destruct (app_keeps_registry req w Hreq) as [HS HR].
    unfold in_step. by rewrite HS, HR.
Qed.

Lemma run_in_step reqs w : in_step w → in_step (run reqs w).
Proof.
  intros Hw. induction reqs as [|req reqs IH] using rev_ind; [done|].
  rewrite run_snoc. by apply app_in_step.
Qed.

End CoordinatorRuns.

(** ** The monolithic app, handler by handler *)

Section AppFacts.

Implicit Types (T : gmap string (gmap string dict)) (record : App.Record_).

Lemma app_create_record_eq table_name record T :
  let ck := composite_key (App.key record) (App.sort_key record) in
  App.create_record table_name record T =
    match T !! table_name with
    | None => (Raise (HTTPException 404 (JStr "Table not found")), T)
    | Some table =>
        match table !! ck with
        | Some _ => (Raise (HTTPException 400 (JStr "Record already exists")), T)
        | None =>
            (Return (JObj [("message", JStr "Record created"); ("key", JStr ck)]),
             <[table_name := <[ck := App.value record]> table]> T)
        end
    end.
Proof.
  unfold App.create_record; unfold bind, get, put, raise, ret, composite_key.
  destruct (T !! table_name) as [t|] eqn:Ht; run_handler; [|done].
  destruct (t !! _) as [v|] eqn:Hv; by run_handler.
Qed.

Lemma app_read_record_eq table_name key T :
  App.read_record table_name key T =
    (match T !! table_name with
     | None => Raise (HTTPException 404 (JStr "Table not found"))
     | Some table =>
         match table !! key with
         | None => Raise (HTTPException 404 (JStr "Record not found"))
         | Some record => Return (JObj [("key", JStr key); ("value", JObj record)])
         end
     end, T).
Proof.
  unfold App.read_record; unfold bind, get, put, raise, ret.
  destruct (T !! table_name) as [t|] eqn:Ht; run_handler; [|done].
  destruct (t !! _) as [v|] eqn:Hv; by run_handler.
Qed.

Lemma app_update_record_eq table_name key record T :
  App.update_record table_name key record T =
    match T !! table_name with
    | None => (Raise (HTTPException 404 (JStr "Table not found")), T)
    | Some table =>
        match table !! key with
        | None => (Raise (HTTPException 404 (JStr "Record not found")), T)
        | Some _ =>
            (Return (JObj [("message", JStr "Record updated"); ("key", JStr key)]),
             <[table_name := <[key := App.value record]> table]> T)
        end
    end.
Proof.
  unfold App.update_record; unfold bind, get, put, raise, ret.
  destruct (T !! table_name) as [t|] eqn:Ht; run_handler; [|done].
  destruct (t !! _) as [v|] eqn:Hv; by run_handler.
Qed.

Lemma app_delete_record_eq table_name key T :
  App.delete_record table_name key T =
    match T !! table_name with
    | None => (Raise (HTTPException 404 (JStr "Table not found")), T)
    | Some table =>
        match table !! key with
        | None => (Raise (HTTPException 404 (JStr "Record not found")), T)
        | Some _ =>
            (Return (JObj [("message", JStr ("Record " +:+ key +:+ " deleted"))]),
             <[table_name := delete key table]> T)
        end
    end.
Proof.
  unfold App.delete_record; unfold bind, get, put, raise, ret.
  destruct (T !! table_name) as [t|] eqn:Ht; run_handler; [|done].
  destruct (t !! _) as [v|] eqn:Hv; by run_handler.
Qed.

End AppFacts.

(** ** Handlers that work at one key *)

Section AtKey.

Implicit Types (S : gmap string (gmap string dict)).

Lemma entry_Some S table t ck : S !! table = Some t → entry S table ck = t !! ck.
Proof. unfold entry. by intros ->. Qed.

Lemma entry_None S table ck : S !! table = None → entry S table ck = None.
Proof. unfold entry. by intros ->. Qed.

Lemma entry_insert S table t ck v :
  entry (<[table := <[ck := v]> t]> S) table ck = Some v.
Proof. unfold entry. rewrite lookup_insert_eq. simpl. by rewrite lookup_insert_eq. Qed.

Lemma entry_insert_ne S table t ck v t' k' :
  (t', k') ≠ (table, ck) → t = default ∅ (S !! table) →
  entry (<[table := <[ck := v]> t]> S) t' k' = entry S t' k'.
Proof.
  intros Hne ->. unfold entry. destruct (decide (t' = table)) as [->|Ht].
  - rewrite lookup_insert_eq. simpl.
    rewrite lookup_insert_ne by congruence.
    by destruct (S !! table).
  - by rewrite lookup_insert_ne.
Qed.

Lemma entry_delete S table t ck :
  entry (<[table := delete ck t]> S) table ck = None.
Proof. unfold entry. rewrite lookup_insert_eq. simpl. by rewrite lookup_delete_eq. Qed.

Lemma entry_delete_ne S table t ck t' k' :
  (t', k') ≠ (table, ck) → S !! table = Some t →
  entry (<[table := delete ck t]> S) t' k' = entry S t' k'.
Proof.
  intros Hne HS. unfold entry. destruct (decide (t' = table)) as [->|Ht].
  - rewrite lookup_insert_eq, HS. simpl.
    by rewrite lookup_delete_ne by congruence.
  - by rewrite lookup_insert_ne.
Qed.

End AtKey.

(** Settles [at_key] for a handler whose outcome has been rewritten to a case
    analysis on the table and on the entry. *)
Ltac at_key_frame :=
  intros S t k Hne; simpl;
  repeat case_match; simplify_eq; simpl; try done;
  first [ apply entry_insert_ne; [done | by run_handler]
        | by apply entry_delete_ne ].
Ltac at_key_reads :=
  intros S S' Htable Hentry; simpl;
  destruct (S !! _) as [t|] eqn:HS, (S' !! _) as [t'|] eqn:HS';
  try (destruct Htable as [H1 H2];
       first [ destruct H1 as [? ?]; [by eauto | done]
             | destruct H2 as [? ?]; [by eauto | done] ]);
  rewrite ?(entry_Some _ _ _ _ HS), ?(entry_Some _ _ _ _ HS'),
    ?(entry_None _ _ _ HS), ?(entry_None _ _ _ HS') in Hentry;
  simpl; rewrite ?Hentry; repeat case_match; simplify_eq; done.

Section AtKeyHandlers.

Lemma shard_create_at_key data :
  at_key (Shard.create data) (Shard.table data)
    (composite_key (Shard.key data) (Shard.sort_key data)).
Proof.
  split.
  - intros S t k Hne. rewrite shard_create_eq. simpl. by apply entry_insert_ne.
  - intros S S' _ _. by rewrite !shard_create_eq.
Qed.

Lemma shard_read_at_key table key sort_key :
  at_key (Shard.read table key sort_key) table (composite_key key sort_key).
Proof.
  split.
  - intros S t k _. by rewrite shard_read_eq.
  - setoid_rewrite shard_read_eq. at_key_reads.
Qed.

Lemma shard_exists_at_key table key sort_key :
  at_key (Shard.exists_ table key sort_key) table (composite_key key sort_key).
Proof.
  split.
  - intros S t k _. by rewrite shard_exists_eq.
  - intros S S' _ Hentry. rewrite !shard_exists_eq. simpl. by rewrite Hentry.
Qed.

Lemma shard_update_at_key data :
  at_key (Shard.update data) (Shard.table data)
    (composite_key (Shard.key data) (Shard.sort_key data)).
Proof.
  split.
  - setoid_rewrite shard_update_eq. at_key_frame.
  - setoid_rewrite shard_update_eq. at_key_reads.
Qed.

Lemma shard_delete_at_key table key sort_key :
  at_key (Shard.delete table key sort_key) table (composite_key key sort_key).
Proof.
  split.
  - setoid_rewrite shard_delete_eq. at_key_frame.
  - setoid_rewrite shard_delete_eq. at_key_reads.
Qed.

Lemma app_create_record_at_key table_name record :
  at_key (App.create_record table_name record) table_name
    (composite_key (App.key record) (App.sort_key record)).
Proof.
  split.
  - setoid_rewrite app_create_record_eq. at_key_frame.
  - setoid_rewrite app_create_record_eq. at_key_reads.
Qed.

Lemma app_read_record_at_key table_name key :
  at_key (App.read_record table_name key) table_name key.
Proof.
  split.
  - intros S t k _. by rewrite app_read_record_eq.
  - setoid_rewrite app_read_record_eq. at_key_reads.
Qed.

Lemma app_update_record_at_key table_name key record :
  at_key (App.update_record table_name key record) table_name key.
Proof.
  split.
  - setoid_rewrite app_update_record_eq. at_key_frame.
  - setoid_rewrite app_update_record_eq. at_key_reads.
Qed.

Lemma app_delete_record_at_key table_name key :
  at_key (App.delete_record table_name key) table_name key.
Proof.
  split.
  - setoid_rewrite app_delete_record_eq. at_key_frame.
  - setoid_rewrite app_delete_record_eq. at_key_reads.
Qed.

End AtKeyHandlers.

(** ** Handlers that are routed by one key *)

Section RoutedBy.

Import Coordinator.

Variable hash : string → N.
Variable validation_error : json → json.
Variable text : json → string.
Variable other : Shard.Method → string → option string → Shard.Request.

Ltac routed :=
  unfold routed_by; intros w;
  rewrite ?create_record_eq, ?read_record_eq, ?exists_record_eq,
    ?update_record_eq, ?delete_record_eq; cbv zeta;
  destruct (get_shard_for_key _ _ _).1 as [[n u]|e]; [|done];
  match goal with
  | |- context [send ?v ?u ?r ?w] =>
      pose proof (send_SENT v u r w) as Hsent;
      destruct (send v u r w) as [[resp|e] w']
  end; simpl in *; repeat case_match; simpl;
  (split; [eexists; eassumption|]); intros j Hj; simplify_eq; eauto.

Lemma create_record_routed data :
  routed_by hash (create_record hash validation_error data)
    (composite_key (key data) (sort_key data)).
Proof. routed. Qed.

Lemma read_record_routed table key sort_key :
  routed_by hash (read_record hash validation_error text other table key sort_key)
    (composite_key key sort_key).
Proof. routed. Qed.

Lemma exists_record_routed table key sort_key :
  routed_by hash (exists_record hash validation_error other table key sort_key)
    (composite_key key sort_key).
Proof. routed. Qed.

Lemma update_record_routed data :
  routed_by hash (update_record hash validation_error text data)
    (composite_key (key data) (sort_key data)).
Proof. routed. Qed.

Lemma delete_record_routed table key sort_key :
  routed_by hash (delete_record hash validation_error text other table key sort_key)
    (composite_key key sort_key).
Proof. routed. Qed.

End RoutedBy.

(** ** Requests that leave a record alone *)

Section Frame.

Import Coordinator.

Variable hash : string → N.
Variable replicas : nat.
Variable validation_error : json → json.
Variable text : json → string.
Variable other : Shard.Method → string → option string → Shard.Request.

Lemma serve_store {S} (h : M S json) (s : S) : (serve h s).2 = (h s).2.
Proof. unfold serve. destruct (h s) as [[b|[]] s']; done. Qed.






End Frame.

(** ** What the coordinator forwards, and where the shard serves it *)

Section Forwards.

Import Coordinator.

Variable hash : string → N.
Variable validation_error : json → json.
Variable text : json → string.
Variable other : Shard.Method → string → option string → Shard.Request.

Ltac forwarded :=
  unfold forwards; intros w;
  rewrite ?create_record_eq, ?read_record_eq, ?exists_record_eq,
    ?update_record_eq, ?delete_record_eq; cbv zeta;
  destruct (get_shard_for_key _ _ _).1 as [[n u]|e]; [|done];
  match goal with
  | |- context [send ?v ?u ?r ?w] =>
      pose proof (send_SENT v u r w);
      destruct (send v u r w) as [[resp|e] w']
  end; simpl in *; repeat case_match; simpl;
  (split; [eassumption|]); intros j Hj; simplify_eq; eauto.

Lemma create_record_forwards data :
  let ck := composite_key (key data) (sort_key data) in
  forwards hash (create_record hash validation_error data) ck
    (Shard.POST_create (JObj (dict_set "composite_key" (JStr ck) (KeyValue_dict data)))).
Proof. forwarded. Qed.

Lemma update_record_forwards data :
  let ck := composite_key (key data) (sort_key data) in
  forwards hash (update_record hash validation_error text data) ck
    (Shard.PUT_update (JObj (dict_set "composite_key" (JStr ck) (KeyValue_dict data)))).
Proof. forwarded. Qed.

Lemma read_record_forwards table key sort_key :
  Shard.plain table = true → Shard.plain key = true →
  forwards hash (read_record hash validation_error text other table key sort_key)
    (composite_key key sort_key) (Shard.GET_read table key (params sort_key)).
Proof.
  intros Ht Hk. destruct (by_path_plain other table key sort_key Ht Hk) as (<- & _ & _).
  forwarded.
Qed.

Lemma exists_record_forwards table key sort_key :
  Shard.plain table = true → Shard.plain key = true →
  forwards hash (exists_record hash validation_error other table key sort_key)
    (composite_key key sort_key) (Shard.GET_exists table key (params sort_key)).
Proof.
  intros Ht Hk. destruct (by_path_plain other table key sort_key Ht Hk) as (_ & <- & _).
  forwarded.
Qed.

Lemma delete_record_forwards table key sort_key :
  Shard.plain table = true → Shard.plain key = true →
  forwards hash (delete_record hash validation_error text other table key sort_key)
    (composite_key key sort_key) (Shard.DELETE_delete table key (params sort_key)).
Proof.
  intros Ht Hk. destruct (by_path_plain other table key sort_key Ht Hk) as (_ & _ & <-).
  forwarded.
Qed.

Lemma serve_answer {S} (h : M S json) (s s' : S) :
  (h s).1 = (h s').1 → (serve h s).1 = (serve h s').1.
Proof.
  unfold serve. destruct (h s) as [r1 s1], (h s') as [r2 s2]. simpl. intros ->.
  by repeat case_match.
Qed.

(** A handler that works at a key is served at that key over HTTP. *)
Lemma serve_at_key h table ck :
  at_key h table ck →
  (∀ S t k, (t, k) ≠ (table, ck) → entry (serve h S).2 t k = entry S t k) ∧
  (∀ S S', (is_Some (S !! table) ↔ is_Some (S' !! table)) →
           entry S table ck = entry S' table ck → (serve h S).1 = (serve h S').1).
Proof.
  intros [Hframe Hreads]. split.
  - intros S t k Hne. rewrite serve_store. by apply Hframe.
  - intros S S' Htable Hentry. apply serve_answer. by apply Hreads.
Qed.

Lemma body_served_at data ck0 :
  let ck := composite_key (key data) (sort_key data) in
  let body := JObj (dict_set "composite_key" (JStr ck0) (KeyValue_dict data)) in
  served_at (Shard.POST_create body) (table data) ck ∧
  served_at (Shard.PUT_update body) (table data) ck.
Proof.
  cbv zeta. split; intros verr.
  - assert (Happ : ∀ S, Shard.app verr (Shard.POST_create
                (JObj (dict_set "composite_key" (JStr ck0) (KeyValue_dict data)))) S = _)
      by (intros S; apply (proj1 (shard_app_body verr data ck0 S))).
    cbv zeta in Happ. setoid_rewrite Happ. destruct (value data) as [v|]; [|done].
    apply (serve_at_key _ _ _
             (shard_create_at_key (Shard.mkKeyValue (table data) (key data) (sort_key data) v))).
  - assert (Happ : ∀ S, Shard.app verr (Shard.PUT_update
                (JObj (dict_set "composite_key" (JStr ck0) (KeyValue_dict data)))) S = _)
      by (intros S; apply (proj2 (shard_app_body verr data ck0 S))).
    cbv zeta in Happ. setoid_rewrite Happ. destruct (value data) as [v|]; [|done].
    apply (serve_at_key _ _ _
             (shard_update_at_key (Shard.mkKeyValue (table data) (key data) (sort_key data) v))).
Qed.

Lemma query_served_at table key sort_key :
  let ck := composite_key key sort_key in
  served_at (Shard.GET_read table key (params sort_key)) table ck ∧
  served_at (Shard.GET_exists table key (params sort_key)) table ck ∧
  served_at (Shard.DELETE_delete table key (params sort_key)) table ck.
Proof.
  cbv zeta. rewrite <-(composite_key_params key sort_key).
  split_and!; intros verr; simpl; apply serve_at_key.
  - apply shard_read_at_key.
  - apply shard_exists_at_key.
  - apply shard_delete_at_key.
Qed.

End Forwards.

(** * The claims *)

(** ** Composite keys *)

(** C1, as stated, fails on the monolithic app: a record created with key
    [u1] and sort key [o5] is stored under [u1:o5], and an update that names
    the same key and sort key looks under the path key [u1] alone, finds
    nothing and answers 404; the update does not work at the composite key. *)
Lemma monolith_update_ignores_sort_key :
  let created := App.mkRecord "u1" (Some "o5") [("amt", JInt 10)] in
  let updated := App.mkRecord "u1" (Some "o5") [("amt", JInt 11)] in
  let T := {[ "orders" := {[ "u1:o5" := [("amt", JInt 10)] ]} ]} in
  App.create_record "orders" created {[ "orders" := ∅ ]} =
    (Return (JObj [("message", JStr "Record created"); ("key", JStr "u1:o5")]), T) ∧
  App.update_record "orders" "u1" updated T =
    (Raise (HTTPException 404 (JStr "Record not found")), T) ∧
  ¬ at_key (App.update_record "orders" "u1" updated) "orders"
      (composite_key "u1" (Some "o5")).
Proof.
  split_and!; [by vm_compute..|].
  intros [_ Hreads].
  specialize (Hreads {[ "orders" := {[ "u1:o5" := [("amt", JInt 10)] ]} ]}
                     {[ "orders" := {[ "u1:o5" := [("amt", JInt 10)];
                                       "u1" := [("amt", JInt 10)] ]} ]}).
  assert (Hr : (Raise (HTTPException 404 (JStr "Record not found")) : result json)
               = Return (JObj [("message", JStr "Record updated"); ("key", JStr "u1")])).
  { etrans; [etrans; [|apply Hreads]|]; [by vm_compute| |by vm_compute|by vm_compute].
    split; intros _; by eexists. }
  discriminate Hr.
Qed.

(** C1, as amended.  One rule composes the key: the partition key alone when
    the sort key is absent or empty, otherwise partition key, a colon and the
    sort key.  Each of the five record handlers of the coordinator is routed
    by the key so composed.  The body that create and update forward is
    served by the shard at that key of the table, whatever the key; the
    request that read, exists and delete forward is served there when table
    and key are plain path segments (letters, digits, [-] and [_]).  Each of
    the five handlers of the shard works at the key composed by the rule from
    the key and sort key it is given, and a created record is stored there;
    so does the create of the monolithic app, whose read, update and delete
    work at the path key as it is given. *)
Theorem composite_key_rule (hash : string → N)
    (validation_error : json → json) (text : json → string)
    (other : Shard.Method → string → option string → Shard.Request) :
  (∀ key, composite_key key None = key) ∧
  (∀ key s, composite_key key (Some s) =
              if decide (s = EmptyString) then key else key +:+ ":" +:+ s) ∧
  (∀ key sort_key,
     composite_key key (Coordinator.params sort_key) = composite_key key sort_key) ∧
  (∀ data ck,
     Shard.parse_KeyValue
       (JObj (dict_set "composite_key" (JStr ck) (Coordinator.KeyValue_dict data))) =
     (λ v, Shard.mkKeyValue (Coordinator.table data) (Coordinator.key data)
             (Coordinator.sort_key data) v) <$> Coordinator.value data) ∧
  (∀ data, routed_by hash (Coordinator.create_record hash validation_error data)
             (composite_key (Coordinator.key data) (Coordinator.sort_key data))) ∧
  (∀ table key sort_key,
     routed_by hash (Coordinator.read_record hash validation_error text other table key sort_key)
       (composite_key key sort_key)) ∧
  (∀ table key sort_key,
     routed_by hash (Coordinator.exists_record hash validation_error other table key sort_key)
       (composite_key key sort_key)) ∧
  (∀ data, routed_by hash (Coordinator.update_record hash validation_error text data)
             (composite_key (Coordinator.key data) (Coordinator.sort_key data))) ∧
  (∀ table key sort_key,
     routed_by hash (Coordinator.delete_record hash validation_error text other table key sort_key)
       (composite_key key sort_key)) ∧
  (∀ data, at_key (Shard.create data) (Shard.table data)
             (composite_key (Shard.key data) (Shard.sort_key data))) ∧
  (∀ data S, entry (Shard.create data S).2 (Shard.table data)
               (composite_key (Shard.key data) (Shard.sort_key data))
             = Some (Shard.value data)) ∧
  (∀ table key sort_key,
     at_key (Shard.read table key sort_key) table (composite_key key sort_key)) ∧
  (∀ table key sort_key,
     at_key (Shard.exists_ table key sort_key) table (composite_key key sort_key)) ∧
  (∀ data, at_key (Shard.update data) (Shard.table data)
             (composite_key (Shard.key data) (Shard.sort_key data))) ∧
  (∀ table key sort_key,
     at_key (Shard.delete table key sort_key) table (composite_key key sort_key)) ∧
  (∀ table_name record,
     at_key (App.create_record table_name record) table_name
       (composite_key (App.key record) (App.sort_key record))) ∧
  (∀ table_name key, at_key (App.read_record table_name key) table_name key) ∧
  (∀ table_name key record,
     at_key (App.update_record table_name key record) table_name key) ∧
  (∀ table_name key, at_key (App.delete_record table_name key) table_name key) ∧
  (∀ data,
     let ck := composite_key (Coordinator.key data) (Coordinator.sort_key data) in
     let body :=
       JObj (dict_set "composite_key" (JStr ck) (Coordinator.KeyValue_dict data)) in
     forwards hash (Coordinator.create_record hash validation_error data) ck
       (Shard.POST_create body) ∧
     served_at (Shard.POST_create body) (Coordinator.table data) ck ∧
     forwards hash (Coordinator.update_record hash validation_error text data) ck
       (Shard.PUT_update body) ∧
     served_at (Shard.PUT_update body) (Coordinator.table data) ck) ∧
  (∀ table key sort_key,
     Shard.plain table = true → Shard.plain key = true →
     let ck := composite_key key sort_key in
     let sent := Coordinator.params sort_key in
     forwards hash
       (Coordinator.read_record hash validation_error text other table key sort_key) ck
       (Shard.GET_read table key sent) ∧
     served_at (Shard.GET_read table key sent) table ck ∧
     forwards hash
       (Coordinator.exists_record hash validation_error other table key sort_key) ck
       (Shard.GET_exists table key sent) ∧
     served_at (Shard.GET_exists table key sent) table ck ∧
     forwards hash
       (Coordinator.delete_record hash validation_error text other table key sort_key) ck
       (Shard.DELETE_delete table key sent) ∧
     served_at (Shard.DELETE_delete table key sent) table ck).
Proof.
  split_and!.
  - apply composite_key_None.
  - apply composite_key_Some.
  - apply composite_key_params.
  - apply parse_payload.
  - apply create_record_routed.
  - apply read_record_routed.
  - apply exists_record_routed.
  - apply update_record_routed.
  - apply delete_record_routed.
  - apply shard_create_at_key.
  - intros data S. rewrite shard_create_eq. apply entry_insert.
  - apply shard_read_at_key.
  - apply shard_exists_at_key.
  - apply shard_update_at_key.
  - apply shard_delete_at_key.
  - apply app_create_record_at_key.
  - apply app_read_record_at_key.
  - apply app_update_record_at_key.
  - apply app_delete_record_at_key.
  - intros data. cbv zeta. split_and!.
    + apply create_record_forwards.
    + apply body_served_at.
    + apply update_record_forwards.
    + apply body_served_at.
  - intros table key sort_key Htable Hkey. cbv zeta.
    destruct (query_served_at table key sort_key) as (? & ? & ?).
    split_and!; try done.
    + by apply read_record_forwards.
    + by apply exists_record_forwards.
    + by apply delete_record_forwards.
Qed.

(** The order [u1]/[o5] of table [orders]: the read that the coordinator
    forwards is the shard's read of that table, key and sort key, served at
    [u1:o5]. *)
Lemma composite_key_rule_witness :
  forwards demo_hash
    (Coordinator.read_record demo_hash demo_validation_error demo_text demo_other
       "orders" "u1" (Some "o5"))
    (composite_key "u1" (Some "o5"))
    (Shard.GET_read "orders" "u1" (Coordinator.params (Some "o5"))) ∧
  served_at (Shard.GET_read "orders" "u1" (Coordinator.params (Some "o5")))
    "orders" (composite_key "u1" (Some "o5")).
Proof.
  pose proof (composite_key_rule demo_hash demo_validation_error demo_text demo_other)
    as Hrule.
  repeat (destruct Hrule as [_ Hrule]).
  destruct (Hrule "orders" "u1" (Some "o5") eq_refl eq_refl) as (? & ? & _).
  by split.
Defined.

(** ** Round trip through the coordinator *)

(** Shard resolution is a function of the ring, the address map and the key. *)
Lemma get_shard_for_key_registry hash key (w w' : Coordinator.World) :
  Coordinator.RING w = Coordinator.RING w' →
  Coordinator.SHARDS w = Coordinator.SHARDS w' →
  (Coordinator.get_shard_for_key hash key w).1 =
  (Coordinator.get_shard_for_key hash key w').1.
Proof. intros HR HS. rewrite !get_shard_for_key_eq. simpl. by rewrite HR, HS. Qed.

(** C2, on the deployment of two shards.  Table [orders] is registered and
    an order is created through the coordinator under the key [u1?x] with
    sort key [o5]: the create returns with its target shard, and that shard
    holds the value at [u1?x:o5].  The read through the coordinator with the
    same table, key and sort key is routed to the same shard, but the path it
    asks for ends at the question mark: the shard is asked for key [u1],
    finds nothing at [u1:o5], and the read fails with status 404.  Create and
    update carry the key in the body and reach the record. *)
Theorem read_cuts_the_key :
  let orders := Coordinator.TableDef.mk "orders" "user" (Some "order") in
  let data :=
    Coordinator.mkKeyValue "orders" "u1?x" (Some "o5") (Some [("amt", JInt 10)]) in
  let registered :=
    Coordinator.app demo_hash 3 demo_validation_error demo_text demo_other
      (Coordinator.POST_register_table orders) demo_world in
  let created :=
    Coordinator.create_record demo_hash demo_validation_error data registered.2 in
  let read :=
    Coordinator.read_record demo_hash demo_validation_error demo_text demo_other
      "orders" "u1?x" (Some "o5") created.2 in
  Coordinator.TABLES created.2 !! "orders" = Some orders ∧
  created.1 =
    Return (JObj [("target_shard", JStr "s1");
                  ("response", JObj [("message", JStr "Created");
                                     ("table", JStr "orders");
                                     ("key", JStr "u1?x:o5")])]) ∧
  (Coordinator.NET created.2 !! "http://s1:8000") ≫=
    (λ STORAGE, entry STORAGE "orders" "u1?x:o5") = Some [("amt", JInt 10)] ∧
  (Coordinator.get_shard_for_key demo_hash "u1?x:o5" created.2).1 =
    Return ("s1", "http://s1:8000") ∧
  Coordinator.SENT read.2 =
    Coordinator.SENT created.2 ++
      [("http://s1:8000", Shard.GET_read "orders" "u1" (Some "o5"))] ∧
  read.1 =
    Raise (HTTPException 404
             (JStr (demo_text (JObj [("detail", JStr "Key not found")])))) ∧
  (Coordinator.update_record demo_hash demo_validation_error demo_text data
     created.2).1 =
    Return (JObj [("target_shard", JStr "s1");
                  ("response", JObj [("message", JStr "Updated");
                                     ("table", JStr "orders");
                                     ("key", JStr "u1?x:o5");
                                     ("new_value", JObj [("amt", JInt 10)])])]).
Proof. split_and!; by vm_compute. Qed.

(** ** Where the table is checked *)

(** A record request gives the same outcome whatever the table catalog
    holds. *)
Lemma crud_ignores_TABLES hash replicas validation_error text other
    (req : Coordinator.Request) (w : Coordinator.World) T :
  is_crud req = true →
  Coordinator.app hash replicas validation_error text other req
    (Coordinator.set_TABLES (λ _, T) w) =
  ((Coordinator.app hash replicas validation_error text other req w).1,
   Coordinator.set_TABLES (λ _, T)
     (Coordinator.app hash replicas validation_error text other req w).2).
Proof.
  destruct req; try done; intros _; simpl;
    rewrite ?create_record_eq, ?read_record_eq, ?exists_record_eq,
      ?update_record_eq, ?delete_record_eq; cbv zeta;
    rewrite (get_shard_for_key_registry hash _ _ w) by done;
    (destruct (Coordinator.get_shard_for_key _ _ _).1 as [[n u]|e]; [|done]);
    rewrite !send_eq; cbv zeta; simpl;
    (destruct (Coordinator.NET w !! u); [|done]);
    simpl; repeat case_match; simplify_eq; done.
Qed.

(** C3, as stated, fails: on the two-shard deployment no table is registered,
    yet a create on table [orders] is forwarded and the read that follows
    returns the record; and with no shard at all the read fails with the 500
    of the shard resolution, not with a table error. *)
Lemma unregistered_table_is_served :
  let data :=
    Coordinator.mkKeyValue "orders" "u1" (Some "o5") (Some [("amt", JInt 10)]) in
  let created :=
    Coordinator.create_record demo_hash demo_validation_error data demo_world in
  Coordinator.TABLES demo_world = ∅ ∧
  Coordinator.SENT created.2 ≠ [] ∧
  (Coordinator.read_record demo_hash demo_validation_error demo_text demo_other
     "orders" "u1" (Some "o5") created.2).1 =
    Return (JObj [("target_shard", JStr "s1");
                  ("response", JObj [("key", JStr "u1:o5");
                                     ("value", JObj [("amt", JInt 10)])])]) ∧
  (Coordinator.read_record demo_hash demo_validation_error demo_text demo_other
     "orders" "u1" (Some "o5") (Coordinator.start ∅)).1 =
    Raise (HTTPException 500 (JStr "No shards available")).
Proof. split_and!; by vm_compute. Qed.

(** C3, as amended.  No record request consults the table catalog: its
    outcome is the same whatever tables are registered.  The table is checked
    by the shard, against its own store, after the coordinator has composed
    the key, resolved the shard and forwarded the request: when the resolved
    shard holds nothing of the table, a read, an update and a delete are each
    forwarded to it; the update fails with status 404 and, as detail, the
    text of the shard's answer [{"detail": "Table not found"}], and so do the
    read and the delete when table and key are plain path segments (letters,
    digits, [-] and [_]). *)
Theorem table_check_is_the_shards (hash : string → N) (replicas : nat)
    (validation_error : json → json) (text : json → string)
    (other : Shard.Method → string → option string → Shard.Request)
    (w : Coordinator.World) (table key : string) (sort_key : option string)
    (value : dict) (shard_name shard_url : string) (STORAGE : gmap string (gmap string dict)) :
  (Coordinator.get_shard_for_key hash (composite_key key sort_key) w).1
    = Return (shard_name, shard_url) →
  Coordinator.NET w !! shard_url = Some STORAGE →
  STORAGE !! table = None →
  let not_found :=
    Raise (HTTPException 404 (JStr (text (JObj [("detail", JStr "Table not found")])))) in
  let read := Coordinator.read_record hash validation_error text other table key sort_key w in
  let update :=
    Coordinator.update_record hash validation_error text
      (Coordinator.mkKeyValue table key sort_key (Some value)) w in
  let delete := Coordinator.delete_record hash validation_error text other table key sort_key w in
  (∀ req T, is_crud req = true →
     (Coordinator.app hash replicas validation_error text other req
        (Coordinator.set_TABLES (λ _, T) w)).1 =
     (Coordinator.app hash replicas validation_error text other req w).1) ∧
  update.1 = not_found ∧
  (Shard.plain table = true → Shard.plain key = true →
   read.1 = not_found ∧ delete.1 = not_found) ∧
  (∃ req, Coordinator.SENT read.2 = Coordinator.SENT w ++ [(shard_url, req)]) ∧
  (∃ req, Coordinator.SENT update.2 = Coordinator.SENT w ++ [(shard_url, req)]) ∧
  (∃ req, Coordinator.SENT delete.2 = Coordinator.SENT w ++ [(shard_url, req)]).
Proof.
  intros Hres Hnet Htable. cbv zeta.
  split; [intros req T Hreq; by rewrite crud_ignores_TABLES|].
  pose proof (read_record_routed hash validation_error text other table key sort_key w)
    as Hr.
  pose proof (update_record_routed hash validation_error text
                (Coordinator.mkKeyValue table key sort_key (Some value)) w) as Hu.
  pose proof (delete_record_routed hash validation_error text other table key sort_key w)
    as Hd.
  simpl in Hu. rewrite Hres in Hr, Hu, Hd.
  destruct Hr as [Hr _], Hu as [Hu _], Hd as [Hd _].
  split_and!; try done.
  - rewrite update_record_eq. cbv zeta.
    cbn [Coordinator.key Coordinator.sort_key]. rewrite Hres, send_eq. cbv zeta.
    rewrite Hnet. rewrite (proj2 (shard_app_body _ _ _ _)). simpl.
    unfold serve. rewrite shard_update_eq. simpl. rewrite Htable. done.
  - intros Hplain_table Hplain_key.
    destruct (by_path_plain other table key sort_key Hplain_table Hplain_key)
      as (Hread & _ & Hdelete).
    split.
    + rewrite read_record_eq. cbv zeta. rewrite Hres, send_eq. cbv zeta.
      rewrite Hnet, Hread. simpl. unfold serve. rewrite shard_read_eq, Htable. done.
    + rewrite delete_record_eq. cbv zeta. rewrite Hres, send_eq. cbv zeta.
      rewrite Hnet, Hdelete. simpl. unfold serve. rewrite shard_delete_eq, Htable. done.
Qed.

(** On the two-shard deployment, whose stores are empty, a read, an update
    and a delete on table [orders] are answered by shard [s1]. *)
Lemma table_check_is_the_shards_witness :
  let not_found :=
    Raise (HTTPException 404 (JStr (demo_text (JObj [("detail", JStr "Table not found")])))) in
  (Coordinator.read_record demo_hash demo_validation_error demo_text demo_other
     "orders" "u1" None demo_world).1 = not_found.
Proof.
  refine (proj1 (proj1 (proj2 (proj2 (table_check_is_the_shards demo_hash 3
                          demo_validation_error demo_text demo_other demo_world
                          "orders" "u1" None [] "s1" "http://s1:8000" ∅ _ _ _)))
                   eq_refl eq_refl)).
  - vm_compute. reflexivity.
  - vm_compute. reflexivity.
  - reflexivity.
Defined.

(** ** The empty ring *)

(** C4.  As long as no shard has been registered, whatever other requests
    were served since start-up, every record request fails with the
    [HTTPException] of status 500 and detail [No shards available]: nothing
    else is raised, no shard is named, no call is made and the world is left
    as it was.  The status is of class 5, while every [HTTPException] that the
    registration endpoints raise for a bad request is of class 4. *)
Theorem no_shards_available (hash : string → N) (replicas : nat)
    (validation_error : json → json) (text : json → string)
    (other : Shard.Method → string → option string → Shard.Request)
    (net : gmap string (gmap string (gmap string dict)))
    (reqs : list Coordinator.Request) (req : Coordinator.Request) :
  Forall (λ r, is_register_shard r = false) reqs →
  is_crud req = true →
  let w := Coordinator.run hash replicas validation_error text other reqs
             (Coordinator.start net) in
  Coordinator.app hash replicas validation_error text other req w =
    (Raise (HTTPException 500 (JStr "No shards available")), w) ∧
  status_class 500 = 5 ∧
  (∀ w' r status detail,
     is_crud r = false →
     (Coordinator.app hash replicas validation_error text other r w').1 =
       Raise (HTTPException status detail) →
     status_class status = 4).
Proof.
  intros Hreqs Hreq w.
  destruct (run_keeps_registry hash replicas validation_error text other reqs
              (Coordinator.start net) Hreqs) as [_ Hring].
  fold w in Hring. simpl in Hring.
  assert (Hnone : ∀ key, Coordinator.get_shard_for_key hash key w =
            (Raise (HTTPException 500 (JStr "No shards available")), w)).
  { intros key. by rewrite get_shard_for_key_eq, Hring. }
  split_and!; [|done|].
  - destruct req; try done; simpl;
      rewrite ?create_record_eq, ?read_record_eq, ?exists_record_eq,
        ?update_record_eq, ?delete_record_eq; cbv zeta; by rewrite Hnone.
  - intros w' r status detail Hr. destruct r; try done; simpl.
    + unfold Coordinator.register_table, Coordinator.modify, bind, get, put, raise, ret.
      case_bool_decide; simpl; intros ?; by simplify_eq.
    + unfold Coordinator.register_shard, Coordinator.RING_add_node,
        Coordinator.modify, bind, get, put, raise, ret. simpl.
      case_bool_decide; simpl; [intros ?; by simplify_eq|].
      unfold ConsistentHash.add_node. by case_decide.
Qed.

(** After two table registrations and a listing, a read still finds no
    shard. *)
Lemma no_shards_available_witness :
  let reqs :=
    [Coordinator.POST_register_table (Coordinator.TableDef.mk "orders" "user" (Some "order"));
     Coordinator.GET_tables;
     Coordinator.POST_register_table (Coordinator.TableDef.mk "users" "user" None)] in
  let w := Coordinator.run demo_hash 3 demo_validation_error demo_text demo_other reqs
             (Coordinator.start ∅) in
  Coordinator.read_record demo_hash demo_validation_error demo_text demo_other "orders" "u1" (Some "o5") w =
    (Raise (HTTPException 500 (JStr "No shards available")), w).
Proof.
  refine (proj1 (no_shards_available demo_hash 3 demo_validation_error demo_text demo_other ∅
                   [Coordinator.POST_register_table
                      (Coordinator.TableDef.mk "orders" "user" (Some "order"));
                    Coordinator.GET_tables;
                    Coordinator.POST_register_table
                      (Coordinator.TableDef.mk "users" "user" None)]
                   (Coordinator.GET_read "orders" "u1" (Some "o5")) _ _)).
  - repeat constructor.
  - reflexivity.
Defined.

(** ** Determinism of routing *)

(** C5.  Shard resolution writes nothing, its answer (shard name and address,
    or the exception) depends on the world only through the ring and the
    address map, and it is the same before and after any sequence of requests
    none of which registers a shard. *)
Theorem routing_is_deterministic (hash : string → N) (replicas : nat)
    (validation_error : json → json) (text : json → string)
    (other : Shard.Method → string → option string → Shard.Request)
    (w : Coordinator.World) (reqs : list Coordinator.Request) (key : string) :
  Forall (λ r, is_register_shard r = false) reqs →
  (Coordinator.get_shard_for_key hash key w).2 = w ∧
  (Coordinator.get_shard_for_key hash key
     (Coordinator.run hash replicas validation_error text other reqs w)).1 =
    (Coordinator.get_shard_for_key hash key w).1 ∧
  (∀ w', Coordinator.RING w' = Coordinator.RING w →
         Coordinator.SHARDS w' = Coordinator.SHARDS w →
         (Coordinator.get_shard_for_key hash key w').1 =
         (Coordinator.get_shard_for_key hash key w).1).
Proof.
  intros Hreqs. split_and!.
  - apply get_shard_for_key_world.
  - destruct (run_keeps_registry hash replicas validation_error text other reqs w Hreqs).
    by apply get_shard_for_key_registry.
  - intros w' ? ?. by apply get_shard_for_key_registry.
Qed.

(** On the two-shard deployment the key [u1:o5] resolves to [s1] at its
    address, before and after a create, a table registration and a delete. *)
Lemma routing_is_deterministic_witness :
  let reqs :=
    [Coordinator.POST_create
       (Coordinator.mkKeyValue "orders" "u1" (Some "o5") (Some [("amt", JInt 10)]));
     Coordinator.POST_register_table (Coordinator.TableDef.mk "orders" "user" (Some "order"));
     Coordinator.DELETE_delete "orders" "u1" (Some "o5")] in
  (Coordinator.get_shard_for_key demo_hash "u1:o5"
     (Coordinator.run demo_hash 3 demo_validation_error demo_text demo_other reqs demo_world)).1 =
    (Coordinator.get_shard_for_key demo_hash "u1:o5" demo_world).1 ∧
  (Coordinator.get_shard_for_key demo_hash "u1:o5" demo_world).1 =
    Return ("s1", "http://s1:8000").
Proof.
  split.
  - refine (proj1 (proj2 (routing_is_deterministic demo_hash 3 demo_validation_error
                            demo_text demo_other demo_world _ "u1:o5" _))).
    repeat constructor.
  - vm_compute. reflexivity.
Defined.

(** ** Records that are not there *)



(** ** What the coordinator does with the shard's status *)

(** C7, evaluated where the code departs from it.  A create without a value
    passes the coordinator's model, is routed to shard [s1] in one call, and
    fails the shard's validation with status 422; the coordinator returns
    normally, which its framework answers with status 200, the 422 body
    sitting under [response].  The update handler, given the same record,
    raises the shard's 422. *)
Theorem create_returns_200_on_shard_error :
  let data := Coordinator.mkKeyValue "orders" "u1" (Some "o5") None in
  let body := JObj (dict_set "composite_key" (JStr "u1:o5") (Coordinator.KeyValue_dict data)) in
  let create := Coordinator.create_record demo_hash demo_validation_error data in
  let update := Coordinator.update_record demo_hash demo_validation_error demo_text data in
  Coordinator.SENT (create demo_world).2 = [("http://s1:8000", Shard.POST_create body)] ∧
  (Shard.app demo_validation_error (Shard.POST_create body) ∅).1 =
    mkResponse 422 (demo_validation_error body) ∧
  (create demo_world).1 =
    Return (JObj [("target_shard", JStr "s1"); ("response", demo_validation_error body)]) ∧
  status_code (serve create demo_world).1 = 200 ∧
  (update demo_world).1 =
    Raise (HTTPException 422 (JStr (demo_text (demo_validation_error body)))).
Proof. split_and!; by vm_compute. Qed.

(** ** Registration and the ring *)

(** C8.  In every state the coordinator reaches from start-up, the names
    holding an address are exactly the identities of the ring, and every
    shard the ring can answer holds an address.  There a registration under
    a name already taken raises 400 [Shard already exists] and changes
    nothing, and a registration under a new name returns normally having
    recorded the address and added the node to the ring in the one step.
    In any state whatever, a registration under a name that holds an address
    raises that 400 and changes nothing. *)
Theorem registration_and_ring_in_step (hash : string → N) (replicas : nat)
    (validation_error : json → json) (text : json → string)
    (other : Shard.Method → string → option string → Shard.Request)
    (net : gmap string (gmap string (gmap string dict)))
    (reqs : list Coordinator.Request) (data : Coordinator.ShardRegistration.t) :
  let w := Coordinator.run hash replicas validation_error text other reqs
             (Coordinator.start net) in
  let name := Coordinator.ShardRegistration.name data in
  let url := Coordinator.ShardRegistration.url data in
  dom (Coordinator.SHARDS w) =@{gset string}
    list_to_set (ConsistentHash.nodes (Coordinator.RING w)) ∧
  (∀ key shard_name,
     ConsistentHash.get_node hash key (Coordinator.RING w) = Some shard_name →
     is_Some (Coordinator.SHARDS w !! shard_name)) ∧
  Coordinator.register_shard hash replicas data w =
    (if bool_decide (name ∈ dom (Coordinator.SHARDS w))
     then (Raise (HTTPException 400 (JStr "Shard already exists")), w)
     else
       (Return (JObj [("message", JStr ("Shard " +:+ name +:+ " registered"));
                      ("url", JStr url)]),
        Coordinator.set_RING
          (λ R, ConsistentHash.mkRing (name :: ConsistentHash.nodes R)
                  (ConsistentHash.add_vnodes hash replicas name (ConsistentHash.ring R)))
          (Coordinator.set_SHARDS <[name := url]> w))) ∧
  (∀ w0, is_Some (Coordinator.SHARDS w0 !! name) →
         Coordinator.register_shard hash replicas data w0 =
           (Raise (HTTPException 400 (JStr "Shard already exists")), w0)).
Proof.
  intros w name url.
  assert (Hw : in_step w) by apply run_in_step, start_in_step.
  split_and!.
  - apply Hw.
  - intros key shard_name [q Hq]%get_node_elem.
    apply elem_of_dom. destruct Hw as [-> Hring].
    apply elem_of_list_to_set. eauto.
  - by apply register_shard_eq.
  - intros w0 Hname.
    unfold Coordinator.register_shard, bind, get, raise.
    by rewrite bool_decide_eq_true_2.
Qed.

(** ** Creating over an existing record *)

(** C9, evaluated where the code departs from it.  On a shard that holds
    [{"amt": 10}] for order [u1:o5], a create of [{"amt": 99}] for the same
    key is answered 200 [Created] and the stored value is replaced; the
    create of the monolithic app, on the same store and record, raises 400
    [Record already exists] and leaves the store as it was. *)
Theorem shard_create_overwrites :
  let STORAGE : gmap string (gmap string dict) :=
    {[ "orders" := {[ "u1:o5" := [("amt", JInt 10)] ]} ]} in
  let body :=
    JObj [("table", JStr "orders"); ("key", JStr "u1"); ("sort_key", JStr "o5");
          ("value", JObj [("amt", JInt 99)]); ("composite_key", JStr "u1:o5")] in
  Shard.app demo_validation_error (Shard.POST_create body) STORAGE =
    (mkResponse 200 (JObj [("message", JStr "Created"); ("table", JStr "orders");
                           ("key", JStr "u1:o5")]),
     {[ "orders" := {[ "u1:o5" := [("amt", JInt 99)] ]} ]}) ∧
  App.create_record "orders" (App.mkRecord "u1" (Some "o5") [("amt", JInt 99)]) STORAGE =
    (Raise (HTTPException 400 (JStr "Record already exists")), STORAGE).
Proof. split; by vm_compute. Qed.

(** ** The empty sort key *)

(** C10.  An empty sort key counts as none.  The composite key is then the
    partition key alone; each handler of the shard does the same on every
    store for the empty sort key as for no sort key; so do the coordinator's
    read, exists and delete on every world, and its create and update return
    the same, name the same shard and leave the same stores behind.  With the
    empty sort key the record is the one at the bare partition key: the
    shard's create writes the value there and reports that key, its read,
    exists, update and delete look there; the coordinator's create and update
    resolve the shard for the bare key and leave the value at the bare key of
    the table on the node at its address; its read, exists and delete are
    routed by the bare key and, when table and key are plain path segments,
    forward the shard's request with the empty sort key. *)
Theorem empty_sort_key_is_no_sort_key (hash : string → N)
    (validation_error : json → json) (text : json → string)
    (other : Shard.Method → string → option string → Shard.Request) :
  (∀ key, composite_key key (Some EmptyString) = key ∧ composite_key key None = key) ∧
  (∀ table key value S,
     Shard.create (Shard.mkKeyValue table key (Some EmptyString) value) S =
     Shard.create (Shard.mkKeyValue table key None value) S) ∧
  (∀ table key S,
     Shard.read table key (Some EmptyString) S = Shard.read table key None S) ∧
  (∀ table key S,
     Shard.exists_ table key (Some EmptyString) S = Shard.exists_ table key None S) ∧
  (∀ table key value S,
     Shard.update (Shard.mkKeyValue table key (Some EmptyString) value) S =
     Shard.update (Shard.mkKeyValue table key None value) S) ∧
  (∀ table key S,
     Shard.delete table key (Some EmptyString) S = Shard.delete table key None S) ∧
  (∀ table key w,
     Coordinator.read_record hash validation_error text other table key (Some EmptyString) w =
     Coordinator.read_record hash validation_error text other table key None w) ∧
  (∀ table key w,
     Coordinator.exists_record hash validation_error other table key (Some EmptyString) w =
     Coordinator.exists_record hash validation_error other table key None w) ∧
  (∀ table key w,
     Coordinator.delete_record hash validation_error text other table key (Some EmptyString) w =
     Coordinator.delete_record hash validation_error text other table key None w) ∧
  (∀ table key value w,
     let empty :=
       Coordinator.create_record hash validation_error
         (Coordinator.mkKeyValue table key (Some EmptyString) (Some value)) w in
     let none :=
       Coordinator.create_record hash validation_error
         (Coordinator.mkKeyValue table key None (Some value)) w in
     empty.1 = none.1 ∧ Coordinator.NET empty.2 = Coordinator.NET none.2) ∧
  (∀ table key value w,
     let empty :=
       Coordinator.update_record hash validation_error text
         (Coordinator.mkKeyValue table key (Some EmptyString) (Some value)) w in
     let none :=
       Coordinator.update_record hash validation_error text
         (Coordinator.mkKeyValue table key None (Some value)) w in
     empty.1 = none.1 ∧ Coordinator.NET empty.2 = Coordinator.NET none.2) ∧
  (∀ table key value S,
     Shard.create (Shard.mkKeyValue table key (Some EmptyString) value) S =
       (Return (JObj [("message", JStr "Created"); ("table", JStr table);
                      ("key", JStr key)]),
        <[table := <[key := value]> (default ∅ (S !! table))]> S)) ∧
  (∀ table key S,
     Shard.read table key (Some EmptyString) S =
       (match S !! table with
        | None => Raise (HTTPException 404 (JStr "Table not found"))
        | Some t =>
            match t !! key with
            | None => Raise (HTTPException 404 (JStr "Key not found"))
            | Some v => Return (JObj [("key", JStr key); ("value", JObj v)])
            end
        end, S)) ∧
  (∀ table key S,
     Shard.exists_ table key (Some EmptyString) S =
       (Return (JObj [("exists", JBool (bool_decide (is_Some (entry S table key))))]),
        S)) ∧
  (∀ table key value S,
     Shard.update (Shard.mkKeyValue table key (Some EmptyString) value) S =
       match S !! table with
       | None => (Raise (HTTPException 404 (JStr "Table not found")), S)
       | Some t =>
           match t !! key with
           | None => (Raise (HTTPException 404 (JStr "Key not found for update")), S)
           | Some _ =>
               (Return (JObj [("message", JStr "Updated"); ("table", JStr table);
                              ("key", JStr key); ("new_value", JObj value)]),
                <[table := <[key := value]> t]> S)
           end
       end) ∧
  (∀ table key S,
     Shard.delete table key (Some EmptyString) S =
       match S !! table with
       | None => (Raise (HTTPException 404 (JStr "Table not found")), S)
       | Some t =>
           match t !! key with
           | None => (Raise (HTTPException 404 (JStr "Key not found")), S)
           | Some _ =>
               (Return (JObj [("message", JStr "Deleted"); ("key", JStr key)]),
                <[table := delete key t]> S)
           end
       end) ∧
  (∀ table key value w,
     let created :=
       Coordinator.create_record hash validation_error
         (Coordinator.mkKeyValue table key (Some EmptyString) (Some value)) w in
     match (Coordinator.get_shard_for_key hash key w).1 with
     | Raise e => created = (Raise e, w)
     | Return (shard_name, shard_url) =>
         match Coordinator.NET w !! shard_url with
         | None => created.1 = Raise (ConnectError shard_url)
         | Some STORAGE =>
             created.1 =
               Return (JObj [("target_shard", JStr shard_name);
                             ("response",
                              JObj [("message", JStr "Created"); ("table", JStr table);
                                    ("key", JStr key)])]) ∧
             Coordinator.NET created.2 =
               <[shard_url := <[table := <[key := value]> (default ∅ (STORAGE !! table))]>
                                STORAGE]> (Coordinator.NET w)
         end
     end) ∧
  (∀ table key value w,
     let updated :=
       Coordinator.update_record hash validation_error text
         (Coordinator.mkKeyValue table key (Some EmptyString) (Some value)) w in
     match (Coordinator.get_shard_for_key hash key w).1 with
     | Raise e => updated = (Raise e, w)
     | Return (shard_name, shard_url) =>
         match Coordinator.NET w !! shard_url with
         | None => updated.1 = Raise (ConnectError shard_url)
         | Some STORAGE =>
             let not_found detail :=
               updated.1 =
                 Raise (HTTPException 404 (JStr (text (JObj [("detail", JStr detail)])))) ∧
               Coordinator.NET updated.2 = Coordinator.NET w in
             match STORAGE !! table with
             | None => not_found "Table not found"
             | Some t =>
                 match t !! key with
                 | None => not_found "Key not found for update"
                 | Some _ =>
                     updated.1 =
                       Return (JObj [("target_shard", JStr shard_name);
                                     ("response",
                                      JObj [("message", JStr "Updated");
                                            ("table", JStr table); ("key", JStr key);
                                            ("new_value", JObj value)])]) ∧
                     Coordinator.NET updated.2 =
                       <[shard_url := <[table := <[key := value]> t]> STORAGE]>
                         (Coordinator.NET w)
                 end
             end
         end
     end) ∧
  (∀ table key,
     routed_by hash
       (Coordinator.read_record hash validation_error text other table key
          (Some EmptyString)) key ∧
     routed_by hash
       (Coordinator.exists_record hash validation_error other table key
          (Some EmptyString)) key ∧
     routed_by hash
       (Coordinator.delete_record hash validation_error text other table key
          (Some EmptyString)) key) ∧
  (∀ table key,
     Shard.plain table = true → Shard.plain key = true →
     forwards hash
       (Coordinator.read_record hash validation_error text other table key
          (Some EmptyString)) key
       (Shard.GET_read table key (Some EmptyString)) ∧
     forwards hash
       (Coordinator.exists_record hash validation_error other table key
          (Some EmptyString)) key
       (Shard.GET_exists table key (Some EmptyString)) ∧
     forwards hash
       (Coordinator.delete_record hash validation_error text other table key
          (Some EmptyString)) key
       (Shard.DELETE_delete table key (Some EmptyString))).
Proof.
  split_and!; try done.
  - intros table key value w. cbv zeta. rewrite !create_record_eq. cbv zeta.
    cbn [Coordinator.key Coordinator.sort_key].
    rewrite composite_key_empty, composite_key_None.
    destruct (Coordinator.get_shard_for_key _ _ _).1 as [[n u]|e]; [|done].
    rewrite !send_eq. cbv zeta. destruct (Coordinator.NET w !! u) as [S|]; [|done].
    rewrite !(proj1 (shard_app_body _ _ _ _)).
    cbn [Coordinator.value Coordinator.table Coordinator.key Coordinator.sort_key].
    unfold serve. rewrite !shard_create_eq. split; reflexivity.
  - intros table key value w. cbv zeta. rewrite !update_record_eq. cbv zeta.
    cbn [Coordinator.key Coordinator.sort_key].
    rewrite composite_key_empty, composite_key_None.
    destruct (Coordinator.get_shard_for_key _ _ _).1 as [[n u]|e]; [|done].
    rewrite !send_eq. cbv zeta. destruct (Coordinator.NET w !! u) as [S|]; [|done].
    rewrite !(proj2 (shard_app_body _ _ _ _)).
    cbn [Coordinator.value Coordinator.table Coordinator.key Coordinator.sort_key].
    unfold serve. rewrite !shard_update_eq. cbv zeta.
    cbn [Shard.table Shard.key Shard.sort_key].
    rewrite composite_key_empty, composite_key_None.
    destruct (S !! table) as [t|]; [destruct (t !! key)|]; split; reflexivity.
  - intros table key value S. by rewrite shard_create_eq.
  - intros table key S. by rewrite shard_read_eq.
  - intros table key S. by rewrite shard_exists_eq.
  - intros table key value S. by rewrite shard_update_eq.
  - intros table key S. by rewrite shard_delete_eq.
  - intros table key value w. cbv zeta. rewrite create_record_eq. cbv zeta.
    cbn [Coordinator.key Coordinator.sort_key]. rewrite composite_key_empty.
    destruct (Coordinator.get_shard_for_key _ _ _).1 as [[n u]|e]; [|done].
    rewrite send_eq. cbv zeta. destruct (Coordinator.NET w !! u) as [S|]; [|done].
    rewrite (proj1 (shard_app_body _ _ _ _)).
    cbn [Coordinator.value Coordinator.table Coordinator.key Coordinator.sort_key].
    unfold serve. rewrite shard_create_eq. split; reflexivity.
  - intros table key value w. cbv zeta. rewrite update_record_eq. cbv zeta.
    cbn [Coordinator.key Coordinator.sort_key]. rewrite composite_key_empty.
    destruct (Coordinator.get_shard_for_key _ _ _).1 as [[n u]|e]; [|done].
    rewrite send_eq. cbv zeta. destruct (Coordinator.NET w !! u) as [S|] eqn:Hnet; [|done].
    rewrite (proj2 (shard_app_body _ _ _ _)).
    cbn [Coordinator.value Coordinator.table Coordinator.key Coordinator.sort_key].
    unfold serve. rewrite shard_update_eq. cbv zeta.
    cbn [Shard.table Shard.key Shard.sort_key Shard.value].
    rewrite composite_key_empty.
    destruct (S !! table) as [t|]; simpl;
      [destruct (t !! key); simpl|]; (split; [done|]);
      by rewrite ?insert_id by done.
  - intros table key. split_and!.
    + apply (read_record_routed hash validation_error text other table key
               (Some EmptyString)).
    + apply (exists_record_routed hash validation_error other table key
               (Some EmptyString)).
    + apply (delete_record_routed hash validation_error text other table key
               (Some EmptyString)).
  - intros table key Htable Hkey. split_and!.
    + by apply (read_record_forwards hash validation_error text other table key
                  (Some EmptyString)).
    + by apply (exists_record_forwards hash validation_error other table key
                  (Some EmptyString)).
    + by apply (delete_record_forwards hash validation_error text other table key
                  (Some EmptyString)).
Qed.

(** The order of key [u1] with an empty sort key in table [orders]: the read
    that the coordinator forwards is the shard's read at the bare key. *)
Lemma empty_sort_key_is_no_sort_key_witness :
  forwards demo_hash
    (Coordinator.read_record demo_hash demo_validation_error demo_text demo_other
       "orders" "u1" (Some EmptyString)) "u1"
    (Shard.GET_read "orders" "u1" (Some EmptyString)).
Proof.
  pose proof (empty_sort_key_is_no_sort_key demo_hash demo_validation_error demo_text
                demo_other) as Hrule.
  repeat (destruct Hrule as [_ Hrule]).
  by destruct (Hrule "orders" "u1" eq_refl eq_refl) as (? & _).
Defined.


(** * Further properties of the code *)

(** ** The shard node *)

(** X1.  On any store, a record just created on the shard is read back
    under its composite key with the value given, and exists. *)
Theorem shard_create_then_read (data : Shard.KeyValue)
    (S : gmap string (gmap string dict)) :
  let S' := (Shard.create data S).2 in
  let ck := composite_key (Shard.key data) (Shard.sort_key data) in
  Shard.read (Shard.table data) (Shard.key data) (Shard.sort_key data) S' =
    (Return (JObj [("key", JStr ck); ("value", JObj (Shard.value data))]), S') ∧
  Shard.exists_ (Shard.table data) (Shard.key data) (Shard.sort_key data) S' =
    (Return (JObj [("exists", JBool true)]), S').
Proof.
  cbv zeta. rewrite shard_read_eq, shard_exists_eq, shard_create_eq. cbv zeta. simpl.
  rewrite entry_insert, !lookup_insert_eq. split; [done|].
  by rewrite bool_decide_eq_true_2.
Qed.

(** X2.  The shard's exists never raises and never writes; it answers true
    exactly when a read of the same record returns, and false exactly when
    that read raises a 404, be it for the table or for the key. *)
Theorem shard_exists_agrees_with_read (table key : string) (sort_key : option string)
    (S : gmap string (gmap string dict)) :
  ∃ b, Shard.exists_ table key sort_key S =
         (Return (JObj [("exists", JBool b)]), S) ∧
       (b = true ↔ ∃ j, (Shard.read table key sort_key S).1 = Return j) ∧
       (b = false ↔ ∃ d, (Shard.read table key sort_key S).1 =
                          Raise (HTTPException 404 d)).
Proof.
  eexists. split; [apply shard_exists_eq|].
  rewrite shard_read_eq. cbv zeta. unfold entry. simpl.
  destruct (S !! table) as [t|]; simpl; [destruct (t !! _) as [v|]|].
  - split; split; try done; eauto. by intros [d ?].
  - split; split; try done; eauto. by intros [j ?].
  - split; split; try done; eauto. by intros [j ?].
Qed.

(** X3.  The shard's delete returns exactly when the record was there, and
    otherwise leaves the store as it was.  After it, in either case, the
    record is absent and exists answers false; the table itself stays
    known, so a read then raises [Key not found], not [Table not found]. *)
Theorem shard_delete_then_gone (table key : string) (sort_key : option string)
    (S : gmap string (gmap string dict)) :
  let ck := composite_key key sort_key in
  let r := Shard.delete table key sort_key S in
  ((∃ j, r.1 = Return j) ↔ is_Some (entry S table ck)) ∧
  (entry S table ck = None → r.2 = S) ∧
  entry r.2 table ck = None ∧
  Shard.exists_ table key sort_key r.2 = (Return (JObj [("exists", JBool false)]), r.2) ∧
  (is_Some (S !! table) →
   Shard.read table key sort_key r.2 =
     (Raise (HTTPException 404 (JStr "Key not found")), r.2)).
Proof.
  cbv zeta. rewrite shard_delete_eq. cbv zeta. unfold entry at 1 2.
  destruct (S !! table) as [t|] eqn:Ht; simpl; [destruct (t !! _) as [v|] eqn:Hv|]; simpl.
  - split_and!; [split; eauto|done|apply entry_delete| |].
    + rewrite shard_exists_eq. cbv zeta. rewrite entry_delete.
      by rewrite bool_decide_eq_false_2 by (by intros [? ?]).
    + intros _. rewrite shard_read_eq. cbv zeta.
      by rewrite lookup_insert_eq, lookup_delete_eq.
  - split_and!; [split; [by intros [? ?]|by intros [? ?]]|done| | |].
    + by rewrite (entry_Some _ _ _ _ Ht).
    + rewrite shard_exists_eq. cbv zeta. rewrite (entry_Some _ _ _ _ Ht), Hv.
      by rewrite bool_decide_eq_false_2 by (by intros [? ?]).
    + intros _. rewrite shard_read_eq. cbv zeta. by rewrite Ht, Hv.
  - split_and!; [split; [by intros [? ?]|by intros [? ?]]|done| | |].
    + by rewrite (entry_None _ _ _ Ht).
    + rewrite shard_exists_eq. cbv zeta. rewrite (entry_None _ _ _ Ht).
      by rewrite bool_decide_eq_false_2 by (by intros [? ?]).
    + by intros [? ?].
Qed.

(** X4.  When the shard's update returns, the record was there before, a
    read gives back the new value, and the update has neither added nor
    removed a record of any table. *)
Theorem shard_update_then_read (data : Shard.KeyValue)
    (S : gmap string (gmap string dict)) (j : json) :
  (Shard.update data S).1 = Return j →
  let S' := (Shard.update data S).2 in
  let ck := composite_key (Shard.key data) (Shard.sort_key data) in
  is_Some (entry S (Shard.table data) ck) ∧
  Shard.read (Shard.table data) (Shard.key data) (Shard.sort_key data) S' =
    (Return (JObj [("key", JStr ck); ("value", JObj (Shard.value data))]), S') ∧
  (∀ t k, is_Some (entry S' t k) ↔ is_Some (entry S t k)).
Proof.
  cbv zeta. rewrite shard_read_eq, shard_update_eq. cbv zeta.
  destruct (S !! Shard.table data) as [t|] eqn:Ht; [|done].
  destruct (t !! _) as [v|] eqn:Hv; [|done]. intros _. simpl.
  rewrite (entry_Some _ _ _ _ Ht), Hv, !lookup_insert_eq.
  split_and!; [by eauto|done|]. intros t' k'.
  destruct (decide ((t', k') =
                    (Shard.table data,
                     composite_key (Shard.key data) (Shard.sort_key data))))
    as [[= -> ->]|Hne].
  - rewrite entry_insert, (entry_Some _ _ _ _ Ht), Hv. split; eauto.
  - rewrite entry_insert_ne; [done..|by rewrite Ht].
Qed.

Lemma shard_update_then_read_witness :
  let S : gmap string (gmap string dict) :=
    {[ "orders" := {[ "u1:o5" := [("amt", JInt 10)] ]} ]} in
  let data := Shard.mkKeyValue "orders" "u1" (Some "o5") [("amt", JInt 11)] in
  Shard.read "orders" "u1" (Some "o5") (Shard.update data S).2 =
    (Return (JObj [("key", JStr (composite_key "u1" (Some "o5")));
                   ("value", JObj [("amt", JInt 11)])]),
     (Shard.update data S).2).
Proof.
  refine (proj1 (proj2 (shard_update_then_read
                          (Shard.mkKeyValue "orders" "u1" (Some "o5") [("amt", JInt 11)])
                          {[ "orders" := {[ "u1:o5" := [("amt", JInt 10)] ]} ]} _ _))).
  vm_compute. reflexivity.
Defined.

(** What a request leaves in the store: a create writes its record, an update
    or a delete that returns writes or removes its record, and every other
    request, and every refused one, changes nothing. *)
Lemma shard_app_store validation_error req (S : gmap string (gmap string dict)) :
  (Shard.app validation_error req S).2 = S ∨
  ∃ table ck t,
    (S !! table = Some t ∨ (S !! table = None ∧ t = ∅ ∧ is_create req = true)) ∧
    status_code (Shard.app validation_error req S).1 = 200 ∧
    ((∃ v, (Shard.app validation_error req S).2 = <[table := <[ck := v]> t]> S ∧
           (is_create req = false → is_Some (t !! ck))) ∨
     (Shard.app validation_error req S).2 = <[table := delete ck t]> S).
Proof.
  destruct req
    as [body|table key sort_key|table key sort_key|body|table key sort_key|answer];
    [..|by left];
    simpl; unfold Shard.with_body;
    try (destruct (Shard.parse_KeyValue body) as [data|]; [|by left]);
    unfold serve;
    rewrite ?shard_create_eq, ?shard_read_eq, ?shard_exists_eq,
      ?shard_update_eq, ?shard_delete_eq; cbv zeta.
  - right. eexists _, _, (default ∅ (S !! Shard.table data)).
    split_and!; [|done|left; eexists; split; [done|done]].
    destruct (S !! Shard.table data); simpl; [by left|by right].
  - left. by repeat case_match.
  - by left.
  - destruct (S !! Shard.table data) as [t|] eqn:Ht; [|by left].
    destruct (t !! _) as [v|] eqn:Hv; [|by left].
    right. eexists _, _, t. split_and!; [by left|done|].
    left. eexists. split; [done|]. intros _. by rewrite Hv.
  - destruct (S !! table) as [t|] eqn:Ht; [|by left].
    destruct (t !! _) as [v|] eqn:Hv; [|by left].
    right. eexists _, _, t. split_and!; [by left|done|by right].
Qed.

(** X5.  A request that the shard answers with a status other than 200, be
    it a 404 or the 422 of a refused body, leaves the store as it was. *)
Theorem shard_failure_changes_nothing (validation_error : json → json)
    (req : Shard.Request) (S : gmap string (gmap string dict)) :
  status_code (Shard.app validation_error req S).1 ≠ 200 →
  (Shard.app validation_error req S).2 = S.
Proof.
  intros Hstatus.
  destruct (shard_app_store validation_error req S) as [?|(? & ? & ? & _ & ? & _)]; done.
Qed.

Lemma shard_failure_changes_nothing_witness :
  let S : gmap string (gmap string dict) :=
    {[ "orders" := {[ "u1:o5" := [("amt", JInt 10)] ]} ]} in
  (Shard.app demo_validation_error (Shard.DELETE_delete "orders" "u1" None) S).2 = S.
Proof.
  apply (shard_failure_changes_nothing demo_validation_error
           (Shard.DELETE_delete "orders" "u1" None)
           {[ "orders" := {[ "u1:o5" := [("amt", JInt 10)] ]} ]}).
  vm_compute. discriminate.
Defined.

(** X6.  The shard never forgets a table: a table that the store knows is
    still known after any sequence of requests, deletes of its last record
    included. *)
Theorem shard_tables_stay_known (validation_error : json → json)
    (reqs : list Shard.Request) (S : gmap string (gmap string dict)) (table : string) :
  is_Some (S !! table) →
  is_Some (Shard.run validation_error reqs S !! table).
Proof.
  revert S. induction reqs as [|req reqs IH]; intros S HS; [done|].
  simpl. apply IH.
  destruct (shard_app_store validation_error req S)
    as [->|(t' & ck & t & _ & _ & [(v & -> & _)| ->])]; [done|..];
    (destruct (decide (t' = table)) as [->|];
     [rewrite lookup_insert_eq; eauto|by rewrite lookup_insert_ne]).
Qed.

Lemma shard_tables_stay_known_witness :
  is_Some (Shard.run demo_validation_error
             [Shard.DELETE_delete "orders" "u1" (Some "o5");
              Shard.GET_read "orders" "u1" (Some "o5")]
             {[ "orders" := {[ "u1:o5" := [("amt", JInt 10)] ]} ]} !! "orders").
Proof.
  apply (shard_tables_stay_known demo_validation_error
           [Shard.DELETE_delete "orders" "u1" (Some "o5");
            Shard.GET_read "orders" "u1" (Some "o5")]
           {[ "orders" := {[ "u1:o5" := [("amt", JInt 10)] ]} ]} "orders").
  vm_compute. eauto.
Defined.

(** X7.  Only a create adds a record: after any sequence of requests without
    a create, every record of the store was already there before. *)
Theorem shard_only_create_adds (validation_error : json → json)
    (reqs : list Shard.Request) (S : gmap string (gmap string dict))
    (table ck : string) :
  Forall (λ req, is_create req = false) reqs →
  is_Some (entry (Shard.run validation_error reqs S) table ck) →
  is_Some (entry S table ck).
Proof.
  revert S. induction reqs as [|req reqs IH]; intros S Hreqs; [done|].
  apply Forall_cons in Hreqs as [Hreq Hreqs]. simpl. intros HS%IH; [|done].
  destruct (shard_app_store validation_error req S)
    as [Heq|(t' & k' & t & [Ht|(_ & _ & ?)] & _ & Hstore)]; [by rewrite Heq in HS| |congruence].
  destruct Hstore as [(v & Heq & Hthere)|Heq]; rewrite Heq in HS; clear Heq.
  - destruct (decide ((table, ck) = (t', k'))) as [[= -> ->]|Hne].
    + rewrite (entry_Some _ _ _ _ Ht). auto.
    + rewrite entry_insert_ne in HS; [done..|by rewrite Ht].
  - destruct (decide ((table, ck) = (t', k'))) as [[= -> ->]|Hne].
    + by rewrite entry_delete in HS; destruct HS.
    + by rewrite entry_delete_ne in HS.
Qed.

Lemma shard_only_create_adds_witness :
  is_Some (entry ({[ "orders" := {[ "u1:o5" := [("amt", JInt 10)] ]} ]}
                    : gmap string (gmap string dict)) "orders" "u1:o5").
Proof.
  apply (shard_only_create_adds demo_validation_error
           [Shard.PUT_update
              (JObj [("table", JStr "orders"); ("key", JStr "u1");
                     ("sort_key", JStr "o5"); ("value", JObj [("amt", JInt 11)])]);
            Shard.DELETE_delete "orders" "u1" (Some "o6")]
           {[ "orders" := {[ "u1:o5" := [("amt", JInt 10)] ]} ]} "orders" "u1:o5").
  - repeat constructor.
  - vm_compute. eauto.
Defined.

(** ** The monolithic app *)

(** X8.  Registering a table on the monolithic app returns exactly when the
    name was free; afterwards the table is known in either case, a table
    that was there keeps every record it had, and a table newly registered
    is empty. *)
Theorem app_register_table_keeps_records (definition : App.TableDefinition.t)
    (T : gmap string (gmap string dict)) :
  let name := App.TableDefinition.name definition in
  let r := App.register_table definition T in
  ((∃ j, r.1 = Return j) ↔ T !! name = None) ∧
  (r.1 = Raise (HTTPException 400 (JStr "Table already exists")) ↔ is_Some (T !! name)) ∧
  is_Some (r.2 !! name) ∧
  (∀ t records, T !! t = Some records → r.2 !! t = Some records) ∧
  (T !! name = None → r.2 !! name = Some ∅).
Proof.
  cbv zeta. unfold App.register_table, bind, get, put, raise, ret.
  destruct (T !! App.TableDefinition.name definition) as [t|] eqn:Ht; simpl.
  - split_and!; try done. split; [by intros [? ?]|done].
  - split_and!.
    + split; eauto.
    + split; [done|by intros [? ?]].
    + rewrite lookup_insert_eq. eauto.
    + intros t records Hrec. rewrite lookup_insert_ne; [done|congruence].
    + intros _. apply lookup_insert_eq.
Qed.

(** X9.  On a table that was never registered, create, read, update and
    delete of the monolithic app all raise 404 [Table not found] and leave
    the tables as they were. *)
Theorem app_unknown_table (T : gmap string (gmap string dict))
    (table_name key : string) (record : App.Record_) :
  T !! table_name = None →
  let not_found := (Raise (HTTPException 404 (JStr "Table not found")), T) in
  App.create_record table_name record T = not_found ∧
  App.read_record table_name key T = not_found ∧
  App.update_record table_name key record T = not_found ∧
  App.delete_record table_name key T = not_found.
Proof.
  intros HT. cbv zeta.
  rewrite app_create_record_eq, app_read_record_eq, app_update_record_eq,
    app_delete_record_eq. cbv zeta. by rewrite HT.
Qed.

Lemma app_unknown_table_witness :
  App.delete_record "users" "u1" {[ "orders" := ∅ ]} =
    (Raise (HTTPException 404 (JStr "Table not found")), {[ "orders" := ∅ ]}).
Proof.
  refine (proj2 (proj2 (proj2 (app_unknown_table {[ "orders" := ∅ ]} "users" "u1"
                                 (App.mkRecord "u1" None []) _)))).
  vm_compute. reflexivity.
Defined.

(** X10.  When the create of the monolithic app returns, the key it reports
    is the composite key, and a read under that reported key gives back the
    value that was created. *)
Theorem app_create_then_read (T T' : gmap string (gmap string dict))
    (table_name : string) (record : App.Record_) (j : json) :
  App.create_record table_name record T = (Return j, T') →
  let ck := composite_key (App.key record) (App.sort_key record) in
  j = JObj [("message", JStr "Record created"); ("key", JStr ck)] ∧
  App.read_record table_name ck T' =
    (Return (JObj [("key", JStr ck); ("value", JObj (App.value record))]), T').
Proof.
  rewrite app_create_record_eq. cbv zeta.
  destruct (T !! table_name) as [t|] eqn:Ht; [|done].
  destruct (t !! _) as [v|] eqn:Hv; [done|]. intros [= <- <-].
  split; [done|]. rewrite app_read_record_eq. by rewrite !lookup_insert_eq.
Qed.

Lemma app_create_then_read_witness :
  let T' : gmap string (gmap string dict) :=
    {[ "orders" := {[ "u1:o5" := [("amt", JInt 10)] ]} ]} in
  App.read_record "orders" (composite_key "u1" (Some "o5")) T' =
    (Return (JObj [("key", JStr (composite_key "u1" (Some "o5")));
                   ("value", JObj [("amt", JInt 10)])]), T').
Proof.
  refine (proj2 (app_create_then_read {[ "orders" := ∅ ]} _ "orders"
                   (App.mkRecord "u1" (Some "o5") [("amt", JInt 10)]) _ _)).
  vm_compute. reflexivity.
Defined.

(** X11.  On a registered table the monolithic app creates a record at most
    once: after a create, whatever its outcome, another create for the same
    key and sort key raises 400 [Record already exists], whatever value it
    brings, and changes nothing. *)
Theorem app_create_only_once (T : gmap string (gmap string dict))
    (table_name : string) (record again : App.Record_) :
  is_Some (T !! table_name) →
  App.key again = App.key record →
  App.sort_key again = App.sort_key record →
  let T' := (App.create_record table_name record T).2 in
  App.create_record table_name again T' =
    (Raise (HTTPException 400 (JStr "Record already exists")), T').
Proof.
  intros [t Ht] Hkey Hsort. cbv zeta.
  rewrite !app_create_record_eq. cbv zeta. rewrite Hkey, Hsort, Ht.
  destruct (t !! _) as [v|] eqn:Hv; simpl.
  - by rewrite Ht, Hv.
  - by rewrite !lookup_insert_eq.
Qed.

Lemma app_create_only_once_witness :
  let T' :=
    (App.create_record "orders" (App.mkRecord "u1" (Some "o5") [("amt", JInt 10)])
       {[ "orders" := ∅ ]}).2 in
  App.create_record "orders" (App.mkRecord "u1" (Some "o5") [("amt", JInt 99)]) T' =
    (Raise (HTTPException 400 (JStr "Record already exists")), T').
Proof.
  apply (app_create_only_once {[ "orders" := ∅ ]} "orders"
           (App.mkRecord "u1" (Some "o5") [("amt", JInt 10)])
           (App.mkRecord "u1" (Some "o5") [("amt", JInt 99)])).
  - vm_compute. eauto.
  - reflexivity.
  - reflexivity.
Defined.

(** X12.  When the delete of the monolithic app returns, the record was
    there; afterwards a read under the same key raises 404
    [Record not found], the table is still registered, and a create whose
    composite key is that key returns again. *)
Theorem app_delete_then_read (T T' : gmap string (gmap string dict))
    (table_name key : string) (record : App.Record_) (j : json) :
  App.delete_record table_name key T = (Return j, T') →
  composite_key (App.key record) (App.sort_key record) = key →
  is_Some (entry T table_name key) ∧
  App.read_record table_name key T' =
    (Raise (HTTPException 404 (JStr "Record not found")), T') ∧
  ∃ T'', App.create_record table_name record T' =
           (Return (JObj [("message", JStr "Record created"); ("key", JStr key)]), T'').
Proof.
  rewrite app_delete_record_eq.
  destruct (T !! table_name) as [t|] eqn:Ht; [|done].
  destruct (t !! key) as [v|] eqn:Hv; [|done]. intros [= <- <-] Hck.
  rewrite (entry_Some _ _ _ _ Ht), Hv. split; [by eauto|].
  rewrite app_read_record_eq, app_create_record_eq. cbv zeta.
  rewrite Hck, !lookup_insert_eq, !lookup_delete_eq. eauto.
Qed.

Lemma app_delete_then_read_witness :
  let T : gmap string (gmap string dict) :=
    {[ "orders" := {[ "u1:o5" := [("amt", JInt 10)] ]} ]} in
  App.read_record "orders" "u1:o5" (App.delete_record "orders" "u1:o5" T).2 =
    (Raise (HTTPException 404 (JStr "Record not found")),
     (App.delete_record "orders" "u1:o5" T).2).
Proof.
  refine (proj1 (proj2 (app_delete_then_read
                          {[ "orders" := {[ "u1:o5" := [("amt", JInt 10)] ]} ]} _
                          "orders" "u1:o5" (App.mkRecord "u1" (Some "o5") []) _ _ _))).
  - vm_compute. reflexivity.
  - reflexivity.
Defined.

(** X13.  When the update of the monolithic app returns, the record was
    there under the path key, and a read under that key gives back the new
    value; the key and sort key inside the body play no part. *)
Theorem app_update_then_read (T T' : gmap string (gmap string dict))
    (table_name key : string) (record : App.Record_) (j : json) :
  App.update_record table_name key record T = (Return j, T') →
  is_Some (entry T table_name key) ∧
  App.read_record table_name key T' =
    (Return (JObj [("key", JStr key); ("value", JObj (App.value record))]), T') ∧
  ∀ other, App.value other = App.value record →
           App.update_record table_name key other T = (Return j, T').
Proof.
  rewrite app_update_record_eq.
  destruct (T !! table_name) as [t|] eqn:Ht; [|done].
  destruct (t !! key) as [v|] eqn:Hv; [|done]. intros [= <- <-].
  rewrite (entry_Some _ _ _ _ Ht), Hv. split; [by eauto|].
  rewrite app_read_record_eq, !lookup_insert_eq. split; [done|].
  intros other Hother. by rewrite app_update_record_eq, Ht, Hv, Hother.
Qed.

Lemma app_update_then_read_witness :
  let T : gmap string (gmap string dict) :=
    {[ "orders" := {[ "u1:o5" := [("amt", JInt 10)] ]} ]} in
  let record := App.mkRecord "u1" (Some "o5") [("amt", JInt 11)] in
  App.read_record "orders" "u1:o5" (App.update_record "orders" "u1:o5" record T).2 =
    (Return (JObj [("key", JStr "u1:o5"); ("value", JObj [("amt", JInt 11)])]),
     (App.update_record "orders" "u1:o5" record T).2).
Proof.
  refine (proj1 (proj2 (app_update_then_read
                          {[ "orders" := {[ "u1:o5" := [("amt", JInt 10)] ]} ]} _
                          "orders" "u1:o5"
                          (App.mkRecord "u1" (Some "o5") [("amt", JInt 11)]) _ _))).
  vm_compute. reflexivity.
Defined.

(** X14.  Every request of the monolithic app that raises, for an unknown
    table, a missing record or a duplicate, leaves the tables as they
    were. *)
Theorem app_failure_changes_nothing (req : App.Request)
    (T : gmap string (gmap string dict)) (e : exn) :
  (App.app req T).1 = Raise e → (App.app req T).2 = T.
Proof.
  destruct req; simpl;
    rewrite ?app_create_record_eq, ?app_read_record_eq, ?app_update_record_eq,
      ?app_delete_record_eq; cbv zeta.
  - unfold App.register_table, bind, get, put, raise, ret. by case_bool_decide.
  - by repeat case_match.
  - done.
  - by repeat case_match.
  - by repeat case_match.
Qed.

Lemma app_failure_changes_nothing_witness :
  let T : gmap string (gmap string dict) :=
    {[ "orders" := {[ "u1:o5" := [("amt", JInt 10)] ]} ]} in
  (App.app (App.POST_create "orders" (App.mkRecord "u1" (Some "o5") [])) T).2 = T.
Proof.
  apply (app_failure_changes_nothing
           (App.POST_create "orders" (App.mkRecord "u1" (Some "o5") []))
           {[ "orders" := {[ "u1:o5" := [("amt", JInt 10)] ]} ]}
           (HTTPException 400 (JStr "Record already exists"))).
  vm_compute. reflexivity.
Defined.

(** X15.  The monolithic app never drops a table: a table that is registered
    is still registered after any sequence of requests, and registering it
    again in between does not empty it: a record is lost only to a delete
    under its key. *)
Theorem app_tables_and_records_stay (reqs : list App.Request)
    (T : gmap string (gmap string dict)) (table_name key : string) :
  Forall (λ req, req ≠ App.DELETE_delete table_name key) reqs →
  (is_Some (T !! table_name) → is_Some (App.run reqs T !! table_name)) ∧
  (is_Some (entry T table_name key) → is_Some (entry (App.run reqs T) table_name key)).
Proof.
  revert T. induction reqs as [|req reqs IH]; intros T Hreqs; [done|].
  apply Forall_cons in Hreqs as [Hreq Hreqs]. simpl.
  destruct (IH (App.app req T).2 Hreqs) as [IHt IHe].
  assert (Hstep : (is_Some (T !! table_name) → is_Some ((App.app req T).2 !! table_name)) ∧
                  (is_Some (entry T table_name key) →
                   is_Some (entry (App.app req T).2 table_name key))).
  2: { destruct Hstep as [Ht He]. split; intros ?; [apply IHt, Ht|apply IHe, He]; done. }
  clear IH IHt IHe Hreqs.
  destruct req as [definition|t record|t k|t k|t k record]; simpl;
    rewrite ?app_create_record_eq, ?app_read_record_eq, ?app_update_record_eq,
      ?app_delete_record_eq; cbv zeta.
  - pose proof (app_register_table_keeps_records definition T) as (_ & _ & _ & Hkeep & _).
    unfold entry. split.
    + intros [records Hrec]. rewrite (Hkeep _ _ Hrec). eauto.
    + destruct (T !! table_name) as [records|] eqn:Hrec; [|by intros [? ?]].
      by rewrite (Hkeep _ _ Hrec).
  - destruct (T !! t) as [records|] eqn:Ht; [|done].
    destruct (records !! _) as [v|] eqn:Hv; [done|]. simpl. split.
    + destruct (decide (t = table_name)) as [->|];
        [rewrite lookup_insert_eq; eauto|by rewrite lookup_insert_ne].
    + destruct (decide ((table_name, key) =
                        (t, composite_key (App.key record) (App.sort_key record))))
        as [[= -> ->]|Hne].
      * rewrite entry_insert. eauto.
      * rewrite entry_insert_ne; [done..|by rewrite Ht].
  - done.
  - destruct (T !! t) as [records|] eqn:Ht; [|done].
    destruct (records !! k) as [v|] eqn:Hv; [|done]. simpl. split.
    + destruct (decide (t = table_name)) as [->|];
        [rewrite lookup_insert_eq; eauto|by rewrite lookup_insert_ne].
    + rewrite entry_delete_ne; [done| |done]. congruence.
  - destruct (T !! t) as [records|] eqn:Ht; [|done].
    destruct (records !! k) as [v|] eqn:Hv; [|done]. simpl. split.
    + destruct (decide (t = table_name)) as [->|];
        [rewrite lookup_insert_eq; eauto|by rewrite lookup_insert_ne].
    + destruct (decide ((table_name, key) = (t, k))) as [[= -> ->]|Hne].
      * rewrite entry_insert. eauto.
      * rewrite entry_insert_ne; [done..|by rewrite Ht].
Qed.

Lemma app_tables_and_records_stay_witness :
  let T : gmap string (gmap string dict) :=
    {[ "orders" := {[ "u1:o5" := [("amt", JInt 10)] ]} ]} in
  let reqs :=
    [App.POST_register_table (App.TableDefinition.mk "orders" "user" (Some "order"));
     App.DELETE_delete "orders" "u1:o6";
     App.PUT_update "orders" "u1:o5" (App.mkRecord "u1" (Some "o5") [("amt", JInt 11)])] in
  is_Some (entry (App.run reqs T) "orders" "u1:o5").
Proof.
  refine (proj2 (app_tables_and_records_stay
                   [App.POST_register_table
                      (App.TableDefinition.mk "orders" "user" (Some "order"));
                    App.DELETE_delete "orders" "u1:o6";
                    App.PUT_update "orders" "u1:o5"
                      (App.mkRecord "u1" (Some "o5") [("amt", JInt 11)])]
                   {[ "orders" := {[ "u1:o5" := [("amt", JInt 10)] ]} ]}
                   "orders" "u1:o5" _) _).
  - repeat constructor; discriminate.
  - vm_compute. eauto.
Defined.

(** ** The coordinator *)

Section CoordinatorKeeps.

Import Coordinator.

Variable hash : string → N.
Variable replicas : nat.
Variable validation_error : json → json.
Variable text : json → string.
Variable other : Shard.Method → string → option string → Shard.Request.

Local Abbreviation app := (app hash replicas validation_error text other).
Local Abbreviation run := (run hash replicas validation_error text other).

(** One request removes no registration and alters none. *)
Lemma app_keeps_registrations req w :
  (∀ name url, SHARDS w !! name = Some url → SHARDS (app req w).2 !! name = Some url) ∧
  (∀ name defn, TABLES w !! name = Some defn → TABLES (app req w).2 !! name = Some defn).
Proof.
  destruct (is_crud req) eqn:Hcrud.
  { destruct (crud_globals hash replicas validation_error text other req w Hcrud)
      as (-> & _ & ->). done. }
  destruct req; try done; simpl.
  - unfold register_table, modify, bind, get, put, raise, ret.
    case_bool_decide as Hin; [done|]. simpl. split; [done|].
    intros name d Hname. rewrite lookup_insert_ne; [done|].
    intros <-. apply Hin. eauto.
  - unfold register_shard, RING_add_node, modify, bind, get, put, raise, ret. simpl.
    case_bool_decide as Hin; [done|]. simpl.
    assert (∀ name url, SHARDS w !! name = Some url →
              <[ShardRegistration.name data := ShardRegistration.url data]> (SHARDS w)
                !! name = Some url).
    { intros name url Hname. rewrite lookup_insert_ne; [done|].
      intros <-. apply Hin. eauto. }
    by destruct (ConsistentHash.add_node _ _ _ _).
Qed.

(** X16.  A table definition, once registered on the coordinator, is there
    for good and never changes: after any sequence of requests, a second
    registration of the name included, the catalog holds the same definition
    under the name. *)
Theorem registered_tables_are_kept (reqs : list Request) (w : World)
    (name : string) (defn : TableDef.t) :
  TABLES w !! name = Some defn →
  TABLES (run reqs w) !! name = Some defn.
Proof.
  revert w. induction reqs as [|req reqs IH]; intros w Hw; [done|].
  simpl. apply IH. by apply app_keeps_registrations.
Qed.

(** X17.  A shard, once registered, is registered for good and under the
    same address: after any sequence of requests, a second registration of
    the name under another address included, the address map holds the
    address first given. *)
Theorem registered_shards_are_kept (reqs : list Request) (w : World)
    (name url : string) :
  SHARDS w !! name = Some url →
  SHARDS (run reqs w) !! name = Some url.
Proof.
  revert w. induction reqs as [|req reqs IH]; intros w Hw; [done|].
  simpl. apply IH. by apply app_keeps_registrations.
Qed.

(** X18.  The two listings change nothing and show what is registered: the
    table listing names each registered table once and no other, and the
    shard listing gives each registered name its address and nothing
    else. *)
Theorem listings_show_the_registrations (w : World) :
  (∃ names,
     list_tables w = (Return (JObj [("tables", JArr (JStr <$> names))]), w) ∧
     NoDup names ∧ ∀ name, name ∈ names ↔ is_Some (TABLES w !! name)) ∧
  (∃ fields,
     list_shards w = (Return (JObj [("shards", JObj fields)]), w) ∧
     ∀ name url, (name, JStr url) ∈ fields ↔ SHARDS w !! name = Some url).
Proof.
  split.
  - exists (map_to_list (TABLES w)).*1. split_and!; [done| |].
    + apply NoDup_fst_map_to_list.
    + intros name. rewrite list_elem_of_fmap. split.
      * intros [[n d] [-> Hin%elem_of_map_to_list]]. eauto.
      * intros [d Hd]. exists (name, d). split; [done|]. by apply elem_of_map_to_list.
  - eexists. split; [done|]. intros name url. rewrite list_elem_of_fmap. split.
    + intros [[n u] [[= -> ->] Hin%elem_of_map_to_list]]. done.
    + intros Hname. exists (name, url). split; [done|]. by apply elem_of_map_to_list.
Qed.

End CoordinatorKeeps.

Lemma registered_tables_are_kept_witness :
  let defn := Coordinator.TableDef.mk "orders" "user" (Some "order") in
  let w := (Coordinator.register_table defn demo_world).2 in
  Coordinator.TABLES
    (Coordinator.run demo_hash 3 demo_validation_error demo_text demo_other
       [Coordinator.POST_register_table (Coordinator.TableDef.mk "orders" "id" None);
        Coordinator.GET_tables] w) !! "orders" = Some defn.
Proof.
  apply (registered_tables_are_kept demo_hash 3 demo_validation_error demo_text demo_other).
  vm_compute. reflexivity.
Defined.

Lemma registered_shards_are_kept_witness :
  Coordinator.SHARDS
    (Coordinator.run demo_hash 3 demo_validation_error demo_text demo_other
       [Coordinator.POST_register_shard
          (Coordinator.ShardRegistration.mk "s1" "http://elsewhere:9000");
        Coordinator.POST_register_shard
          (Coordinator.ShardRegistration.mk "s3" "http://s3:8000")]
       demo_world) !! "s1" = Some "http://s1:8000".
Proof.
  apply (registered_shards_are_kept demo_hash 3 demo_validation_error demo_text demo_other).
  vm_compute. reflexivity.
Defined.

Section CoordinatorRoundTrips.

Import Coordinator.

Variable hash : string → N.
Variable replicas : nat.
Variable validation_error : json → json.
Variable text : json → string.
Variable other : Shard.Method → string → option string → Shard.Request.

Local Abbreviation run := (run hash replicas validation_error text other).






End CoordinatorRoundTrips.









Section CoordinatorCalls.

Import Coordinator.

Variable hash : string → N.
Variable replicas : nat.
Variable validation_error : json → json.
Variable text : json → string.
Variable other : Shard.Method → string → option string → Shard.Request.

Local Abbreviation app := (app hash replicas validation_error text other).
Local Abbreviation run := (run hash replicas validation_error text other).

(** X22.  A request to the coordinator either makes no call and leaves every
    node's store alone, or is a record request that makes exactly one call,
    to the address registered for some shard, and leaves alone the store of
    every node but the one at that address. *)
Theorem request_calls_one_registered_node (req : Request) (w : World) :
  (SENT (app req w).2 = SENT w ∧ NET (app req w).2 = NET w) ∨
  (∃ shard_name shard_url forwarded,
     is_crud req = true ∧
     SHARDS w !! shard_name = Some shard_url ∧
     SENT (app req w).2 = SENT w ++ [(shard_url, forwarded)] ∧
     ∀ url, url ≠ shard_url → NET (app req w).2 !! url = NET w !! url).
Proof.
  destruct (is_crud req) eqn:Hcrud; cycle 1.
  { left. destruct req; try done; simpl.
    - unfold register_table, modify, bind, get, put, raise, ret. by case_bool_decide.
    - unfold register_shard, RING_add_node, modify, bind, get, put, raise, ret. simpl.
      case_bool_decide; [done|]. simpl. by destruct (ConsistentHash.add_node _ _ _ _). }
  destruct req; try done; simpl;
    rewrite ?create_record_eq, ?read_record_eq, ?exists_record_eq,
      ?update_record_eq, ?delete_record_eq; cbv zeta;
    rewrite get_shard_for_key_eq; cbn [fst];
    (destruct (ConsistentHash.get_node _ _ _) as [n|]; [|by left]);
    (destruct (SHARDS w !! n) as [u|] eqn:Hn; [|by left]);
    right; exists n, u; rewrite send_eq; cbv zeta;
    (destruct (NET w !! u) as [S|] eqn:Hnet; simpl;
     repeat case_match; simpl;
     eexists; (split_and!; [done|done|done|]); intros url Hurl;
     by rewrite ?lookup_insert_ne by done).
Qed.

(** X23.  The coordinator calls registered shards only: after any sequence of
    requests, every call on record beyond those already made went to an
    address that the address map holds for some shard. *)
Theorem calls_go_to_registered_shards (reqs : list Request) (w : World)
    (url : string) (forwarded : Shard.Request) :
  (url, forwarded) ∈ SENT (run reqs w) →
  (url, forwarded) ∈ SENT w ∨ ∃ shard_name, SHARDS (run reqs w) !! shard_name = Some url.
Proof.
  induction reqs as [|req reqs IH] using rev_ind; [by left|].
  rewrite run_snoc. intros Hin.
  destruct (request_calls_one_registered_node req (run reqs w))
    as [[Hsent _]|(n & u & r & _ & Hn & Hsent & _)]; rewrite Hsent in Hin.
  - destruct (IH Hin) as [?|[n Hn]]; [by left|]. right. exists n.
    by apply app_keeps_registrations.
  - apply elem_of_app in Hin as [Hin|Hin%list_elem_of_singleton].
    + destruct (IH Hin) as [?|[n' Hn']]; [by left|]. right. exists n'.
      by apply app_keeps_registrations.
    + right. exists n. injection Hin as -> ->. by apply app_keeps_registrations.
Qed.

(** X24.  No retry, no fan-out: after any sequence of requests the calls
    made are at most as many as the record requests served. *)
Theorem calls_bounded_by_record_requests (reqs : list Request) (w : World) :
  (length (SENT (run reqs w)) ≤ length (SENT w) + length (List.filter is_crud reqs))%nat.
Proof.
  induction reqs as [|req reqs IH] using rev_ind; [simpl; lia|].
  rewrite run_snoc, List.filter_app, length_app.
  destruct (request_calls_one_registered_node req (run reqs w))
    as [[-> _]|(n & u & r & Hcrud & _ & -> & _)].
  - lia.
  - rewrite length_app. simpl. rewrite Hcrud. simpl. lia.
Qed.

(** X25.  A request to the coordinator that raises, whatever it raises, has
    changed no node's store: not a record request that the shard refused,
    nor one for which no shard resolved or no node answered. *)
Theorem coordinator_failure_changes_no_store (req : Request) (w : World) (e : exn) :
  (app req w).1 = Raise e → NET (app req w).2 = NET w.
Proof.
  destruct (request_calls_one_registered_node req w)
    as [[_ ?]|(n & u & r & Hcrud & _ & _ & _)]; [done|].
  destruct req; try done; simpl;
    rewrite ?create_record_eq, ?read_record_eq, ?exists_record_eq,
      ?update_record_eq, ?delete_record_eq; cbv zeta;
    (destruct (get_shard_for_key _ _ _).1 as [[n' u']|e']; [|done]);
    rewrite send_eq; cbv zeta;
    (destruct (NET w !! u') as [S|] eqn:Hnet; [|done]);
    match goal with
    | |- context [Shard.app ?v ?r ?S] =>
        pose proof (shard_failure_changes_nothing v r S) as Hfail;
        destruct (Shard.app v r S) as [resp S']
    end; simpl in *; try done;
    try (destruct (status_code resp =? 200) eqn:Hstatus; simpl; [done|];
         apply Z.eqb_neq in Hstatus; rewrite (Hfail Hstatus); intros _;
         by rewrite insert_id).
  destruct (status_code resp =? 200) eqn:Hstatus; simpl; [done|].
  apply Z.eqb_neq in Hstatus. rewrite (Hfail Hstatus).
  destruct (status_code resp =? 204); simpl; [done|]. intros _. by rewrite insert_id.
Qed.

End CoordinatorCalls.

Lemma calls_go_to_registered_shards_witness :
  let reqs :=
    [Coordinator.POST_create
       (Coordinator.mkKeyValue "orders" "u1" (Some "o5") (Some [("amt", JInt 10)]))] in
  ("http://s1:8000",
   Shard.POST_create
     (JObj [("table", JStr "orders"); ("key", JStr "u1"); ("sort_key", JStr "o5");
            ("value", JObj [("amt", JInt 10)]); ("composite_key", JStr "u1:o5")]))
    ∈ Coordinator.SENT demo_world ∨
  ∃ shard_name,
    Coordinator.SHARDS
      (Coordinator.run demo_hash 3 demo_validation_error demo_text demo_other reqs demo_world)
      !! shard_name = Some "http://s1:8000".
Proof.
  apply (calls_go_to_registered_shards demo_hash 3 demo_validation_error demo_text demo_other
           [Coordinator.POST_create
              (Coordinator.mkKeyValue "orders" "u1" (Some "o5") (Some [("amt", JInt 10)]))]
           demo_world).
  vm_compute. left.
Defined.

Lemma coordinator_failure_changes_no_store_witness :
  let req := Coordinator.PUT_update
               (Coordinator.mkKeyValue "orders" "u1" (Some "o5") (Some [("amt", JInt 11)])) in
  Coordinator.NET
    (Coordinator.app demo_hash 3 demo_validation_error demo_text demo_other req demo_world).2 =
  Coordinator.NET demo_world.
Proof.
  apply (coordinator_failure_changes_no_store demo_hash 3 demo_validation_error demo_text demo_other
           (Coordinator.PUT_update
              (Coordinator.mkKeyValue "orders" "u1" (Some "o5") (Some [("amt", JInt 11)])))
           demo_world
           (HTTPException 404
              (JStr (demo_text (JObj [("detail", JStr "Table not found")]))))).
  vm_compute. reflexivity.
Defined.



(** ** The shard at start-up *)

(** The address map after a registration, in any state: a name that holds
    an address keeps it and nothing changes; a new name gets the address
    given, whether or not the ring then takes the node. *)
Lemma register_shard_world hash replicas data (w : Coordinator.World) :
  let name := Coordinator.ShardRegistration.name data in
  let w' := (Coordinator.register_shard hash replicas data w).2 in
  (is_Some (Coordinator.SHARDS w !! name) → w' = w) ∧
  (Coordinator.SHARDS w !! name = None →
   Coordinator.SHARDS w' =
     <[name := Coordinator.ShardRegistration.url data]> (Coordinator.SHARDS w)).
Proof.
  cbv zeta.
  unfold Coordinator.register_shard, Coordinator.RING_add_node, Coordinator.modify,
    bind, get, put, raise, ret. simpl.
  case_bool_decide as Hin; simpl.
  - split; [done|]. intros Hnone. rewrite Hnone in Hin. by destruct Hin.
  - split; [done|]. intros _. by destruct (ConsistentHash.add_node _ _ _ _).
Qed.

(** X27.  The registration a shard makes at start-up never disturbs the
    coordinator: a second start-up changes nothing more than the first did,
    no earlier registration is lost or re-pointed, and without a name in the
    environment nothing is registered at all.  With a name, the name holds
    an address afterwards, and when it held none before, that address is
    [http://{name}:8000]. *)
Theorem startup_registration_is_harmless (hash : string → N) (replicas : nat)
    (validation_error : json → json) (SHARD_NAME : option string)
    (w : Coordinator.World) :
  let startup := Startup.register_with_coordinator hash replicas validation_error in
  let w' := (startup SHARD_NAME w).2 in
  (startup SHARD_NAME w').2 = w' ∧
  (∀ name url, Coordinator.SHARDS w !! name = Some url →
               Coordinator.SHARDS w' !! name = Some url) ∧
  match SHARD_NAME with
  | None => w' = w
  | Some name =>
      Coordinator.SHARDS w' !! name =
        Some (default ("http://" +:+ name +:+ ":8000") (Coordinator.SHARDS w !! name))
  end.
Proof.
  cbv zeta. unfold Startup.register_with_coordinator, Startup.POST_register_shard.
  destruct SHARD_NAME as [name|]; simpl; [|done].
  rewrite !serve_store.
  set (data := Coordinator.ShardRegistration.mk name ("http://" +:+ name +:+ ":8000")).
  destruct (register_shard_world hash replicas data w) as [Hold Hnew].
  set (w' := (Coordinator.register_shard hash replicas data w).2) in *.
  assert (Hname : Coordinator.SHARDS w' !! name =
            Some (default ("http://" +:+ name +:+ ":8000") (Coordinator.SHARDS w !! name))).
  { destruct (Coordinator.SHARDS w !! name) as [url|] eqn:Hw; simpl.
    - by rewrite Hold by eauto.
    - rewrite Hnew by done. apply lookup_insert_eq. }
  split_and!; [|..|done].
  - apply (register_shard_world hash replicas data w'). simpl. by rewrite Hname.
  - intros n u Hn. destruct (Coordinator.SHARDS w !! name) as [url|] eqn:Hw.
    + by rewrite Hold by eauto.
    + rewrite Hnew by done. rewrite lookup_insert_ne; [done|]. simpl. congruence.
Qed.
